(** * vscode-didact: the tutorial registry and the tutorial tree model

    A shallow embedding of [src/utils.ts] (the registry kept in the
    [didact.registered] setting) and of [src/nodeProvider.ts] (the
    category / tutorial / heading tree), followed by the properties of
    the specification that are settled against them. *)

From Stdlib Require Import String Ascii List Bool Arith Lia DecimalString.
Import ListNotations.
Open Scope string_scope.
Open Scope list_scope.

(** ** The fragment of the JavaScript runtime the sources rely on *)

Module JS.

(** A JavaScript string is taken as the string of its bytes in UTF-8:
    equality and emptiness are those of the bytes, and so are splitting
    at, and starting with, characters of the ASCII range.

    [String.prototype.toLowerCase] follows the Unicode case mapping, which
    is no part of the repository: it is an operation of the runtime. *)
Class Strings := {
  toLowerCase : string -> string
}.

(** Truthiness of a string value: every string but the empty one. *)
Definition truthy (s : string) : bool :=
  match s with
  | EmptyString => false
  | String _ _ => true
  end.

(** Truthiness of a [string | undefined] value. *)
Definition truthyOpt (v : option string) : bool :=
  match v with
  | Some s => truthy s
  | None => false
  end.

(** [s.startsWith(p)]. *)
Definition startsWith (s p : string) : bool := String.prefix p s.

(** [s.split(sep)] for a one-character separator: never the empty
    array, and an empty piece between two adjacent separators. *)
Fixpoint split (sep : ascii) (s : string) : list string :=
  match s with
  | EmptyString => [EmptyString]
  | String c rest =>
      if Ascii.eqb c sep then EmptyString :: split sep rest
      else match split sep rest with
           | piece :: pieces => String c piece :: pieces
           | [] => [String c EmptyString]
           end
  end.

(** The [number] values the sources handle and the four operations they
    apply to them.  Neither IEEE-754 arithmetic nor the string grammar of
    [Number] is part of the repository, so they are an interface. *)
Class Numbers := {
  number : Type;
  (** [Number(v)] for [v : string | undefined] *)
  Number : option string -> number;
  (** [Number.isNaN(x)] *)
  isNaN : number -> bool;
  (** [x > 0] *)
  positive : number -> bool;
  (** the text a template literal substitutes for [x] *)
  toString : number -> string;
  (** [Number(undefined)] is [NaN] *)
  Number_undefined : isNaN (Number None) = true
}.

(** The text a template literal substitutes for a [string | undefined]. *)
Definition showOpt (v : option string) : string :=
  match v with
  | Some s => s
  | None => "undefined"
  end.

(** The double-quote character, for the messages that contain it. *)
Definition dquote : string := String (ascii_of_nat 34) EmptyString.

End JS.

(** ** [src/utils.ts]: the tutorial registry *)

Module Utils.
Import JS.

(** One element of the [didact.registered] array.  The array holds JSON
    texts; an element is identified with the object [JSON.parse] gives
    for it.  Every property the sources read is read behind a truthiness
    test of that property, so a missing property, and an element that
    parses to [null], behave as the empty string does.  Texts that are
    not JSON, and properties that hold something else than a string, are
    outside this model: [registerTutorial] writes neither. *)
Record Didact := mkDidact {
  name : string;
  category : string;
  sourceUri : string
}.

(** The value of the setting, [string[] | undefined]. *)
Definition Registry := option (list Didact).

Inductive outcome (A : Type) : Type :=
| Returned (a : A)
| Thrown (message : string).
Arguments Returned {A} a.
Arguments Thrown {A} message.

(** Code that reads and replaces the setting and may throw: the
    setting is threaded through, a throw skips what follows. *)
Definition Config (A : Type) : Type := Registry -> outcome A * Registry.

Definition ret {A} (a : A) : Config A := fun cfg => (Returned a, cfg).

Definition bind {A B} (m : Config A) (k : A -> Config B) : Config B :=
  fun cfg =>
    match m cfg with
    | (Returned a, cfg') => k a cfg'
    | (Thrown msg, cfg') => (Thrown msg, cfg')
    end.

Definition throw {A} (msg : string) : Config A := fun cfg => (Thrown msg, cfg).

Notation "x <- m ;; k" := (bind m (fun x => k))
  (at level 61, m at next level, right associativity).

(** [vscode.workspace.getConfiguration().get(DIDACT_REGISTERED_SETTING)] *)
Definition getRegisteredTutorials : Config Registry :=
  fun cfg => (Returned cfg, cfg).

(** [vscode.workspace.getConfiguration().update(DIDACT_REGISTERED_SETTING, v, ...)] *)
Definition update (v : Registry) : Config unit :=
  fun _ => (Returned tt, v).

Section WithStrings.
Context {Str : Strings}.

(** The loop of [registerTutorial] over the existing entries, with its
    variable [match] and its [break]. *)
Fixpoint matchLoop (name0 category0 : string) (entries : list Didact)
         (match_ : bool) : bool :=
  match entries with
  | [] => match_
  | jsonObj :: rest =>
      if truthy (name jsonObj) && truthy (category jsonObj) then
        let testName := String.eqb (toLowerCase (name jsonObj)) name0 in
        let testCategory := String.eqb (toLowerCase (category jsonObj)) category0 in
        let match' := testName && testCategory in
        if match' then match' else matchLoop name0 category0 rest match'
      else matchLoop name0 category0 rest match_
  end.

Definition alreadyExists (name0 category0 : string) : string :=
  "Didact tutorial with name " ++ name0 ++ " and category " ++ category0
    ++ " already exists".

(** The trailing [extension.refreshTreeview()] rebuilds the view from the
    setting and leaves the setting alone; it is not part of this state. *)
Definition registerTutorial (name0 sourceUri0 category0 : string) : Config unit :=
  let newDidact := mkDidact name0 category0 sourceUri0 in
  existingRegistry <- getRegisteredTutorials ;;
  updated <- match existingRegistry with
             | None => ret [newDidact]
             | Some entries =>
                 if negb (matchLoop name0 category0 entries false)
                 then ret (entries ++ [newDidact])
                 else throw (alreadyExists name0 category0)
             end ;;
  update (Some updated).

(** The three readers take the value of [getRegisteredTutorials()]. *)
Definition getDidactCategories (existingRegistry : Registry) : list string :=
  match existingRegistry with
  | Some entries =>
      fold_left
        (fun didactCategories jsonObj =>
           if truthy (category jsonObj)
           then didactCategories ++ [category jsonObj]
           else didactCategories)
        entries []
  | None => []
  end.

Definition getTutorialsForCategory (category0 : string)
           (existingRegistry : Registry) : list string :=
  match existingRegistry with
  | Some entries =>
      fold_left
        (fun didactTutorials jsonObj =>
           if truthy (category jsonObj) && truthy (name jsonObj) then
             let testCategory := String.eqb (category jsonObj) category0 in
             if testCategory then didactTutorials ++ [name jsonObj]
             else didactTutorials
           else didactTutorials)
        entries []
  | None => []
  end.

Fixpoint uriLoop (name0 category0 : string) (entries : list Didact)
  : option string :=
  match entries with
  | [] => None
  | jsonObj :: rest =>
      if truthy (category jsonObj) && truthy (name jsonObj)
         && truthy (sourceUri jsonObj) then
        let testName := String.eqb (name jsonObj) name0 in
        let testCategory := String.eqb (category jsonObj) category0 in
        if testName && testCategory then Some (sourceUri jsonObj)
        else uriLoop name0 category0 rest
      else uriLoop name0 category0 rest
  end.

Definition getUriForDidactNameAndCategory (name0 category0 : string)
           (existingRegistry : Registry) : option string :=
  match existingRegistry with
  | Some entries => uriLoop name0 category0 entries
  | None => None
  end.

(** What one turn of the loop of [registerTutorial] tests. *)
Definition detects (name0 category0 : string) (e : Didact) : bool :=
  truthy (name e) && truthy (category e)
  && String.eqb (toLowerCase (name e)) name0
  && String.eqb (toLowerCase (category e)) category0.

(** What one turn of the loop of [getTutorialsForCategory] tests. *)
Definition listed (category0 : string) (e : Didact) : bool :=
  truthy (category e) && truthy (name e) && String.eqb (category e) category0.

(** [clearRegisteredTutorials] *)
Definition clearRegisteredTutorials : Config unit := update None.

(** The registrations of a setting, none when it is undefined. *)
Definition registrations (r : Registry) : list Didact :=
  match r with
  | Some entries => entries
  | None => []
  end.

(** Equality of two strings up to letter case. *)
Definition sameIgnoringCase (a b : string) : bool :=
  String.eqb (toLowerCase a) (toLowerCase b).

(** Some registration has this name and this category up to letter case. *)
Definition presentIgnoringCase (name0 category0 : string) (r : Registry) : bool :=
  existsb (fun e => sameIgnoringCase (name e) name0
                    && sameIgnoringCase (category e) category0)
          (registrations r).

(** Some registration has exactly this name and this category. *)
Definition presentExactly (name0 category0 : string) (r : Registry) : bool :=
  existsb (fun e => String.eqb (name e) name0 && String.eqb (category e) category0)
          (registrations r).

(** [pathEquals], with the value of [process.platform] as an argument. *)
Definition pathEquals (platform path1 path2 : string) : bool :=
  let '(path1, path2) :=
    if negb (String.eqb platform "linux")
    then (toLowerCase path1, toLowerCase path2)
    else (path1, path2) in
  String.eqb path1 path2.

End WithStrings.

End Utils.

(** ** The parsed document, as [node-html-parser] hands it over *)

Module Html.

(** An element carries its tag, its attributes, its child nodes and the
    two texts the sources read from it; a child is a text node or an
    element ([instanceof HTMLElement]). *)
Inductive HTMLElement : Type :=
| mkElement (tagName : string) (attrs : list (string * string))
            (childNodes : list Node) (rawText innerText : string)
with Node : Type :=
| TextNode (rawText : string)
| ElementNode (element : HTMLElement).

Definition tagName (e : HTMLElement) : string :=
  match e with mkElement t _ _ _ _ => t end.

Definition attrs (e : HTMLElement) : list (string * string) :=
  match e with mkElement _ a _ _ _ => a end.

Definition childNodes (e : HTMLElement) : list Node :=
  match e with mkElement _ _ c _ _ => c end.

Definition rawText (e : HTMLElement) : string :=
  match e with mkElement _ _ _ r _ => r end.

Definition innerText (e : HTMLElement) : string :=
  match e with mkElement _ _ _ _ i => i end.

(** [e.getAttribute(key)]: the value, or [undefined]. *)
Fixpoint lookup (key : string) (l : list (string * string)) : option string :=
  match l with
  | [] => None
  | (k, v) :: rest => if String.eqb k key then Some v else lookup key rest
  end.

Definition getAttribute (e : HTMLElement) (key : string) : option string :=
  lookup key (attrs e).

End Html.

(** ** [src/nodeProvider.ts]: the tutorial tree *)

Module NodeProvider.
Import JS Html.

(** [vscode.TreeItemCollapsibleState] *)
Inductive TreeItemCollapsibleState := NoState | Collapsed | Expanded.

(** The class a node was constructed by ([instanceof]). *)
Inductive NodeClass := IsTreeNode | IsTutorialNode | IsHeadingNode.

(** A tree item with the fields the three classes set. *)
Record SimpleNode := mkNode {
  class : NodeClass;
  label : string;
  category : option string;
  uri : option string;
  collapsibleState : TreeItemCollapsibleState;
  description : option string;
  contextValue : option string;
  iconPath : option string
}.

Definition TreeNode (type : option string) (label0 : string)
           (uri0 : option string) (state : TreeItemCollapsibleState) : SimpleNode :=
  mkNode IsTreeNode label0 type uri0 state None None None.

Definition TutorialNode (category0 : option string) (label0 : string)
           (uri0 : option string) (state : TreeItemCollapsibleState)
           (inTooltip : option string) : SimpleNode :=
  mkNode IsTutorialNode label0 category0 uri0 state
         (if truthyOpt inTooltip then inTooltip else None)
         None (Some "icon/logo.svg").

Definition HeadingNode (category0 : option string) (label0 : string)
           (uri0 : option string) (description0 : option string) : SimpleNode :=
  mkNode IsHeadingNode label0 category0 uri0 NoState description0 None None.

(** [node.contextValue = v] *)
Definition setContextValue (v : string) (n : SimpleNode) : SimpleNode :=
  mkNode (class n) (label n) (category n) (uri n) (collapsibleState n)
         (description n) (Some v) (iconPath n).

Fixpoint doesNodeExist (oldNodes : list SimpleNode) (newNode : SimpleNode) : bool :=
  match oldNodes with
  | [] => false
  | node :: rest =>
      if String.eqb (label node) (label newNode) then true
      else doesNodeExist rest newNode
  end.

(** [addChild(newNode, true, oldNodes)]: every call in this file passes
    [disableRefresh = true], so the node is pushed and nothing else runs. *)
Definition addChild (newNode : SimpleNode) (oldNodes : list SimpleNode)
  : list SimpleNode :=
  oldNodes ++ [newNode].

(** [processRegisteredTutorials], on the field [this.treeNodes]. *)
Definition processRegisteredTutorials (registered : Utils.Registry)
           (treeNodes : list SimpleNode) : list SimpleNode :=
  let categories := Utils.getDidactCategories registered in
  fold_left
    (fun treeNodes category0 =>
       let newNode := TreeNode (Some category0) category0 None Collapsed in
       if negb (doesNodeExist treeNodes newNode)
       then addChild newNode treeNodes
       else treeNodes)
    categories treeNodes.

(** The provider's two fields, and [resetList] and [refresh] on them. *)
Record Provider := mkProvider {
  treeNodes : list SimpleNode;
  retrieveTutorials : bool
}.

Definition resetList (p : Provider) : Provider :=
  mkProvider [] (retrieveTutorials p).

Definition refresh (registered : Utils.Registry) (p : Provider) : Provider :=
  let p := resetList p in
  if retrieveTutorials p
  then mkProvider (processRegisteredTutorials registered (treeNodes p))
                  (retrieveTutorials p)
  else p.

Definition findCategoryNode (category0 : string) (treeNodes : list SimpleNode)
  : option SimpleNode :=
  let nodeToFind := TreeNode (Some category0) category0 None Collapsed in
  if doesNodeExist treeNodes nodeToFind then Some nodeToFind else None.

(** The strings of a list without their repeats, each at the place of its
    first occurrence. *)
Definition firstOccurrences (l : list string) : list string :=
  rev (nodup string_dec (rev l)).

(** The first child that is an element whose tag name starts with the
    letter H: the child the scan of [getNodeFromADOCDiv] stops at. *)
Fixpoint firstTagged (children : list Node) : option HTMLElement :=
  match children with
  | [] => None
  | TextNode _ :: rest => firstTagged rest
  | ElementNode child :: rest =>
      if startsWith (tagName child) "H" then Some child else firstTagged rest
  end.

(** All the children that are elements whose tag name starts with the
    letter H, in their order. *)
Fixpoint taggedChildren (children : list Node) : list HTMLElement :=
  match children with
  | [] => []
  | TextNode _ :: rest => taggedChildren rest
  | ElementNode child :: rest =>
      if startsWith (tagName child) "H"
      then child :: taggedChildren rest
      else taggedChildren rest
  end.

(** The text after the first equals sign of a piece of the class
    attribute, up to the next one: [chunk.split('=')[1]]. *)
Definition timeOf (chunk : string) : option string :=
  nth_error (split "=" chunk) 1.

Section WithRuntime.
Context {Num : Numbers}.

(** What [src/extensionFunctions.ts] gives this file: the elements of a
    document that carry a time, the format of a document, and the
    total time of a document. *)
Class ExtensionFunctions := {
  getTimeElementsForDidactFileUri : string -> option (list HTMLElement);
  isAsciiDoc : string -> bool;
  computeTimeForDidactFileUri : string -> number
}.

Context {Ext : ExtensionFunctions}.

(** The label [(~N mins)]. *)
Definition minutes (timeValue : number) : string :=
  "(~" ++ toString timeValue ++ " mins)".

(** The line sent to the output channel for a bad time value. *)
Definition invalidTime (title : string) (value : option string) : string :=
  "Warning: Heading node " ++ dquote ++ title ++ dquote
    ++ " has an invalid time value set to " ++ dquote ++ showOpt value ++ dquote.

Definition processTutorialsForCategory (category0 : option string)
           (registered : Utils.Registry) : list SimpleNode :=
  match category0 with
  | Some cat =>
      if truthy cat then
        let tutorials := Utils.getTutorialsForCategory cat registered in
        fold_left
          (fun children tutorial =>
             let tutUri := Utils.getUriForDidactNameAndCategory tutorial cat registered in
             let '(hasChildren, timeLabel) :=
               match tutUri with
               | Some u =>
                   if truthy u then
                     let timeCount := computeTimeForDidactFileUri u in
                     if positive timeCount
                     then (Collapsed, Some (minutes timeCount))
                     else (NoState, None)
                   else (NoState, None)
               | None => (NoState, None)
               end in
             let newNode :=
               setContextValue "TutorialNode"
                 (TutorialNode category0 tutorial tutUri hasChildren timeLabel) in
             if negb (doesNodeExist children newNode)
             then addChild newNode children
             else children)
          tutorials []
      else []
  | None => []
  end.

(** The inner loop of [getNodeFromADOCDiv] over the children of the
    div: the node it returns, if it returns, and the lines it sent to
    the output channel. *)
Fixpoint scanChildren (category0 tutUri splitTime : option string)
         (timeValue : number) (children : list Node)
  : option SimpleNode * list string :=
  match children with
  | [] => (None, [])
  | TextNode _ :: rest => scanChildren category0 tutUri splitTime timeValue rest
  | ElementNode child :: rest =>
      if startsWith (tagName child) "H" then
        let title := innerText child in
        if negb (isNaN timeValue) then
          (Some (HeadingNode category0 title tutUri (Some (minutes timeValue))), [])
        else
          let '(found, sent) :=
            scanChildren category0 tutUri splitTime timeValue rest in
          (found, invalidTime title splitTime :: sent)
      else scanChildren category0 tutUri splitTime timeValue rest
  end.

(** The outer loop over the pieces of the class attribute. *)
Fixpoint scanChunks (divElement : HTMLElement) (category0 tutUri : option string)
         (splitArray : list string) : option SimpleNode * list string :=
  match splitArray with
  | [] => (None, [])
  | chunk :: rest =>
      if startsWith chunk "time=" then
        let splitTime := nth_error (split "=" chunk) 1 in
        let timeValue := Number splitTime in
        let '(found, sent) :=
          if Nat.ltb 0 (List.length (childNodes divElement))
          then scanChildren category0 tutUri splitTime timeValue
                            (childNodes divElement)
          else (None, []) in
        match found with
        | Some node => (Some node, sent)
        | None =>
            let '(found', sent') := scanChunks divElement category0 tutUri rest in
            (found', sent ++ sent')
        end
      else scanChunks divElement category0 tutUri rest
  end.

Definition getNodeFromADOCDiv (divElement : HTMLElement)
           (tutUri category0 : option string) : option SimpleNode * list string :=
  match getAttribute divElement "class" with
  | Some classAttr =>
      if truthy classAttr
      then scanChunks divElement category0 tutUri (split " " classAttr)
      else (None, [])
  | None => (None, [])
  end.

(** One turn of the Markdown loop of [processHeadingsForTutorial], on
    the list [children] and the output channel. *)
Definition markdownHeading (tutUri category0 : option string)
           (state : list SimpleNode * list string) (heading : HTMLElement)
  : list SimpleNode * list string :=
  let '(children, channel) := state in
  let timeAttr := getAttribute heading "time" in
  let timeValue := Number timeAttr in
  let timeLabel :=
    if negb (isNaN timeValue) then Some (minutes timeValue) else None in
  let title := rawText heading in
  let newNode :=
    setContextValue "HeadingNode" (HeadingNode category0 title tutUri timeLabel) in
  let children :=
    if negb (doesNodeExist children newNode) && truthyOpt timeLabel
    then addChild newNode children
    else children in
  let channel :=
    if isNaN timeValue then channel ++ [invalidTime title timeAttr] else channel in
  (children, channel).

(** One turn of the AsciiDoc loop. *)
Definition asciidocHeading (tutUri category0 : option string)
           (state : list SimpleNode * list string) (heading : HTMLElement)
  : list SimpleNode * list string :=
  let '(children, channel) := state in
  let '(newNode, sent) := getNodeFromADOCDiv heading tutUri category0 in
  let children :=
    match newNode with
    | Some node =>
        if negb (doesNodeExist children node)
        then addChild (setContextValue "HeadingNode" node) children
        else children
    | None => children
    end in
  (children, channel ++ sent).

Definition processHeadingsForTutorial (tutUri category0 : option string)
  : list SimpleNode * list string :=
  match tutUri with
  | Some u =>
      if truthy u then
        let headings := getTimeElementsForDidactFileUri u in
        match headings with
        | Some hs =>
            if negb (isAsciiDoc u)
            then fold_left (markdownHeading tutUri category0) hs ([], [])
            else if isAsciiDoc u
            then fold_left (asciidocHeading tutUri category0) hs ([], [])
            else ([], [])
        | None => ([], [])
        end
      else ([], [])
  | None => ([], [])
  end.

(** The lines one piece of the class attribute makes [getNodeFromADOCDiv]
    send when it names a time that is no number: one for each child tagged
    H. *)
Definition warningsOf (children : list Node) (chunk : string) : list string :=
  if startsWith chunk "time="
  then map (fun h => invalidTime (innerText h) (timeOf chunk)) (taggedChildren children)
  else [].

(** The node the loop of [processTutorialsForCategory] builds for one
    tutorial of a category. *)
Definition tutorialNodeOf (cat : string) (registered : Utils.Registry)
           (tutorial : string) : SimpleNode :=
  let tutUri := Utils.getUriForDidactNameAndCategory tutorial cat registered in
  let '(hasChildren, timeLabel) :=
    match tutUri with
    | Some u =>
        if truthy u then
          let timeCount := computeTimeForDidactFileUri u in
          if positive timeCount
          then (Collapsed, Some (minutes timeCount))
          else (NoState, None)
        else (NoState, None)
    | None => (NoState, None)
    end in
  setContextValue "TutorialNode"
    (TutorialNode (Some cat) tutorial tutUri hasChildren timeLabel).

(** [instanceof] for the three classes: a [TutorialNode] is a [TreeNode]. *)
Definition instanceofTutorialNode (n : SimpleNode) : bool :=
  match class n with
  | IsTutorialNode => true
  | _ => false
  end.

Definition instanceofTreeNode (n : SimpleNode) : bool :=
  match class n with
  | IsTreeNode | IsTutorialNode => true
  | IsHeadingNode => false
  end.

Definition instanceofHeadingNode (n : SimpleNode) : bool :=
  match class n with
  | IsHeadingNode => true
  | _ => false
  end.

(** [v === s] for [v : string | undefined]. *)
Definition strictEq (v : option string) (s : string) : bool :=
  match v with
  | Some x => String.eqb x s
  | None => false
  end.

(** The label of a node is a string here, so it is its own name. *)
Definition retrieveTreeItemName (selection : SimpleNode) : string :=
  label selection.

Definition setRetrieveIntegrations (flag : bool) (p : Provider) : Provider :=
  mkProvider (treeNodes p) flag.

(** [getChildren(element)]: the nodes, and what was sent to the output
    channel on the way. *)
Definition getChildren (element : option SimpleNode)
           (registered : Utils.Registry) (p : Provider)
  : list SimpleNode * list string :=
  match element with
  | None => (treeNodes p, [])
  | Some element =>
      if instanceofTutorialNode element then
        processHeadingsForTutorial (uri element) (category element)
      else if truthy (label element) && negb (instanceofTutorialNode element) then
        let tutorialCategory := retrieveTreeItemName element in
        (processTutorialsForCategory (Some tutorialCategory) registered, [])
      else ([], [])
  end.

(** [findTutorialNode]: the [forEach] keeps the last element that matches. *)
Definition findTutorialNode (category0 tutorialName : string)
           (registered : Utils.Registry) (p : Provider) : option SimpleNode :=
  match findCategoryNode category0 (treeNodes p) with
  | Some catNode =>
      let treeItems := fst (getChildren (Some catNode) registered p) in
      fold_left
        (fun foundNode element =>
           if instanceofTreeNode element then
             if String.eqb (label element) tutorialName
                && strictEq (category element) category0
             then Some element
             else foundNode
           else foundNode)
        treeItems None
  | None => None
  end.

Definition findHeadingNode (category0 uri0 : string)
           (registered : Utils.Registry) (p : Provider) : option SimpleNode :=
  match findCategoryNode category0 (treeNodes p) with
  | Some catNode =>
      let treeItems := fst (getChildren (Some catNode) registered p) in
      fold_left
        (fun foundNode element =>
           if instanceofTreeNode element then
             if strictEq (uri element) uri0
                && strictEq (category element) category0
             then Some element
             else foundNode
           else foundNode)
        treeItems None
  | None => None
  end.

(** [getParent]: the first [if] returns only under its inner test. *)
Definition getParent (element : SimpleNode)
           (registered : Utils.Registry) (p : Provider) : option SimpleNode :=
  let returned :=
    if instanceofTutorialNode element then
      match category element with
      | Some tutorialCategory =>
          if truthy tutorialCategory
          then Some (findCategoryNode tutorialCategory (treeNodes p))
          else None
      | None => None
      end
    else None in
  match returned with
  | Some result => result
  | None =>
      if instanceofHeadingNode element then
        match category element, uri element with
        | Some headingCategory, Some headingUri =>
            if truthy headingCategory && truthy headingUri
            then findHeadingNode headingCategory headingUri registered p
            else None
        | _, _ => None
        end
      else None
  end.

(** [addChild(newNode, disableRefresh)] with [oldNodes] left to its default,
    the array of the field [treeNodes]: the node is pushed on that array,
    which is returned; a refresh gives the field a new array. *)
Definition addChildToTree (newNode : SimpleNode) (disableRefresh : bool)
           (registered : Utils.Registry) (p : Provider)
  : list SimpleNode * Provider :=
  let oldNodes := addChild newNode (treeNodes p) in
  let p := mkProvider oldNodes (retrieveTutorials p) in
  if negb disableRefresh then (oldNodes, refresh registered p) else (oldNodes, p).

End WithRuntime.

End NodeProvider.

(** ** Concrete inputs for the examples *)

Module Sample.
Import JS Html.

(** Numbers written with decimal digits only: [Number] of the empty string
    is 0, of a string of digits its value, and [NaN] (here [None]) for
    [undefined] and for a string with a character that is no digit.  It
    agrees with JavaScript on what the examples below feed it: strings of
    decimal digits, the token [abc] and [undefined]. *)
Definition digits (v : option string) : option nat :=
  match v with
  | Some s => option_map Nat.of_uint (NilEmpty.uint_of_string s)
  | None => None
  end.

Definition isNone (x : option nat) : bool :=
  match x with
  | Some _ => false
  | None => true
  end.

Definition isPositive (x : option nat) : bool :=
  match x with
  | Some n => Nat.ltb 0 n
  | None => false
  end.

Definition show (x : option nat) : string :=
  match x with
  | Some n => NilZero.string_of_uint (Nat.to_uint n)
  | None => "NaN"
  end.

#[export] Instance DigitNumbers : Numbers := {
  number := option nat;
  Number := digits;
  isNaN := isNone;
  positive := isPositive;
  toString := show;
  Number_undefined := eq_refl
}.

(** Lower case on the ASCII range: the letters [A]..[Z] (codes 65..90)
    move to [a]..[z], every other byte is kept.  It agrees with JavaScript
    on what the examples below feed it, strings of ASCII characters. *)
Definition lower_ascii (c : ascii) : ascii :=
  let n := nat_of_ascii c in
  if (Nat.leb 65 n && Nat.leb n 90)%bool then ascii_of_nat (n + 32) else c.

Fixpoint asciiToLowerCase (s : string) : string :=
  match s with
  | EmptyString => EmptyString
  | String c rest => String (lower_ascii c) (asciiToLowerCase rest)
  end.

#[export] Instance AsciiStrings : Strings := {
  toLowerCase := asciiToLowerCase
}.

Definition fooCat : Utils.Didact := Utils.mkDidact "Foo" "Cat" "file:///a.didact.md".
Definition lowerFooCat : Utils.Didact := Utils.mkDidact "foo" "cat" "file:///a.didact.md".
Definition barCat : Utils.Didact := Utils.mkDidact "Bar" "Cat" "file:///b.didact.md".
Definition unnamedCat : Utils.Didact := Utils.mkDidact EmptyString "Cat" "file:///c.didact.md".
Definition uncategorised : Utils.Didact := Utils.mkDidact "Foo" EmptyString "file:///c.didact.md".

(** A heading element with a [time] attribute, and one without. *)
Definition timedHeading (title time : string) : HTMLElement :=
  mkElement "H2" [("time", time)] [TextNode title] title title.

Definition untimedHeading (title : string) : HTMLElement :=
  mkElement "H2" [] [TextNode title] title title.

(** A child element of a div. *)
Definition child (tag title : string) : Node :=
  ElementNode (mkElement tag [] [TextNode title] title title).

(** A thematic break: an element with no text. *)
Definition rule : Node :=
  ElementNode (mkElement "HR" [] [] EmptyString EmptyString).

(** A stored top-level node that is no category node. *)
Definition storedCat : NodeProvider.SimpleNode :=
  NodeProvider.TutorialNode (Some "Other") "Cat" (Some "file:///a.didact.md")
                            NodeProvider.Expanded (Some "(~12 mins)").

(** An AsciiDoc section div with the class list [time=10 foo]. *)
Definition section (children : list Node) : HTMLElement :=
  mkElement "DIV" [("class", "time=10 foo")] children EmptyString EmptyString.

(** A div with a given class list. *)
Definition sectionOfClass (classes : string) (children : list Node) : HTMLElement :=
  mkElement "DIV" [("class", classes)] children EmptyString EmptyString.

(** A workspace with two Markdown tutorials and one AsciiDoc tutorial. *)
Definition documents (u : string) : option (list HTMLElement) :=
  if String.eqb u "file:///a.didact.md"
  then Some [timedHeading "Intro" "5"; timedHeading "Setup" "abc";
             untimedHeading "Notes"; timedHeading "Intro" "7"]
  else if String.eqb u "file:///b.didact.adoc"
  then Some [section [child "H2" "Step One"]; section [child "H2" "Step One"]]
  else if String.eqb u "file:///c.didact.md"
  then Some [timedHeading "Setup" "abc"]
  else None.

Definition endsWithAdoc (u : string) : bool :=
  String.eqb u "file:///b.didact.adoc".

#[export] Instance Workspace : NodeProvider.ExtensionFunctions := {
  NodeProvider.getTimeElementsForDidactFileUri := documents;
  NodeProvider.isAsciiDoc := endsWithAdoc;
  NodeProvider.computeTimeForDidactFileUri := fun u =>
    if String.eqb u "file:///a.didact.md" then Some 12 else Some 0
}.

End Sample.

(** * Properties *)

(** ** Strings *)

Section StringFacts.
Import JS.

Lemma lower_ascii_idempotent (c : ascii) :
  Sample.lower_ascii (Sample.lower_ascii c) = Sample.lower_ascii c.
Proof.
  destruct c as [[] [] [] [] [] [] [] []]; reflexivity.
Qed.

Lemma asciiToLowerCase_idempotent (s : string) :
  Sample.asciiToLowerCase (Sample.asciiToLowerCase s) = Sample.asciiToLowerCase s.
Proof.
  induction s as [|c s IH]; simpl.
  - reflexivity.
  - now rewrite lower_ascii_idempotent, IH.
Qed.

Lemma asciiToLowerCase_empty (s : string) :
  Sample.asciiToLowerCase s = EmptyString -> s = EmptyString.
Proof. destruct s; simpl; [reflexivity|discriminate]. Qed.

Lemma truthy_true_iff (s : string) : truthy s = true <-> s <> EmptyString.
Proof.
  destruct s; simpl; split; intro H; congruence.
Qed.

Lemma truthy_false_iff (s : string) : truthy s = false <-> s = EmptyString.
Proof.
  destruct s; simpl; split; intro H; congruence.
Qed.

End StringFacts.

(** ** The registry *)

Section RegistryFacts.
Import JS Utils.
Context {Str : Strings}.

Lemma matchLoop_exists (n c : string) (entries : list Didact) :
  matchLoop n c entries false = existsb (detects n c) entries.
Proof.
  induction entries as [|e rest IH]; simpl; [reflexivity|].
  unfold detects at 1.
  destruct (truthy (name e) && truthy (category e)); simpl; [|exact IH].
  destruct (String.eqb (toLowerCase (name e)) n && String.eqb (toLowerCase (category e)) c);
    simpl; [reflexivity|exact IH].
Qed.

(** The two ways [registerTutorial] ends on a defined setting. *)
Lemma registerTutorial_defined (n u c : string) (entries : list Didact) :
  registerTutorial n u c (Some entries) =
    if existsb (detects n c) entries
    then (Thrown (alreadyExists n c), Some entries)
    else (Returned tt, Some (entries ++ [mkDidact n c u])).
Proof.
  unfold registerTutorial, bind, getRegisteredTutorials.
  rewrite matchLoop_exists.
  destruct (existsb (detects n c) entries); reflexivity.
Qed.

Lemma registerTutorial_undefined (n u c : string) :
  registerTutorial n u c None = (Returned tt, Some [mkDidact n c u]).
Proof. reflexivity. Qed.

(** Where lowering twice is lowering once, the test of the loop has no
    false alarm: what it detects is a registration equal to the new one
    up to letter case. *)
Lemma detects_present (n c : string) (e : Didact) :
  (forall s, toLowerCase (toLowerCase s) = toLowerCase s) ->
  detects n c e = true ->
  sameIgnoringCase (name e) n && sameIgnoringCase (category e) c = true.
Proof.
  unfold detects, sameIgnoringCase. intros Idem H.
  repeat (apply andb_true_iff in H as [H ?]).
  repeat match goal with
         | E : String.eqb _ _ = true |- _ => apply String.eqb_eq in E
         end.
  subst n c. rewrite !Idem, !String.eqb_refl. reflexivity.
Qed.

Lemma sameIgnoringCase_refl_of_eq (a b : string) :
  String.eqb a b = true -> sameIgnoringCase a b = true.
Proof.
  intro H. apply String.eqb_eq in H. subst b.
  unfold sameIgnoringCase. apply String.eqb_refl.
Qed.

Lemma absent_not_exact (n c : string) (r : Registry) :
  presentIgnoringCase n c r = false -> presentExactly n c r = false.
Proof.
  unfold presentIgnoringCase, presentExactly.
  induction (registrations r) as [|e rest IH]; simpl; [reflexivity|].
  intro H. apply orb_false_iff in H as [He Hrest].
  rewrite (IH Hrest), orb_false_r.
  destruct (String.eqb (name e) n) eqn:En; [|reflexivity].
  destruct (String.eqb (category e) c) eqn:Ec; [|reflexivity].
  rewrite (sameIgnoringCase_refl_of_eq _ _ En),
          (sameIgnoringCase_refl_of_eq _ _ Ec) in He.
  discriminate.
Qed.

(** The loops that push are a filter followed by a map. *)
Lemma push_loop {A B} (keep : A -> bool) (f : A -> B) (l : list A) (acc : list B) :
  fold_left (fun acc x => if keep x then acc ++ [f x] else acc) l acc
  = acc ++ map f (filter keep l).
Proof.
  revert acc. induction l as [|x l IH]; intro acc; simpl.
  - now rewrite app_nil_r.
  - rewrite IH. destruct (keep x); simpl; [|reflexivity].
    now rewrite <- app_assoc.
Qed.

Lemma getDidactCategories_filter (r : Registry) :
  getDidactCategories r
  = map category (filter (fun e => truthy (category e)) (registrations r)).
Proof.
  destruct r as [entries|]; [|reflexivity].
  unfold getDidactCategories. simpl.
  now rewrite (push_loop (fun e => truthy (category e)) category).
Qed.

Lemma tutorials_loop (c : string) (entries : list Didact) (acc : list string) :
  fold_left
    (fun didactTutorials jsonObj =>
       if truthy (category jsonObj) && truthy (name jsonObj) then
         if String.eqb (category jsonObj) c then didactTutorials ++ [name jsonObj]
         else didactTutorials
       else didactTutorials)
    entries acc
  = acc ++ map name (filter (listed c) entries).
Proof.
  revert acc. induction entries as [|e rest IH]; intro acc; simpl.
  - now rewrite app_nil_r.
  - rewrite IH. unfold listed.
    destruct (truthy (category e) && truthy (name e)); simpl; [|reflexivity].
    destruct (String.eqb (category e) c); simpl; [|reflexivity].
    now rewrite <- app_assoc.
Qed.

Lemma getTutorialsForCategory_filter (c : string) (r : Registry) :
  getTutorialsForCategory c r = map name (filter (listed c) (registrations r)).
Proof.
  destruct r as [entries|]; [|reflexivity].
  exact (tutorials_loop c entries []).
Qed.

Lemma uriLoop_app (n c : string) (l1 l2 : list Didact) :
  uriLoop n c (l1 ++ l2) =
    match uriLoop n c l1 with
    | Some u => Some u
    | None => uriLoop n c l2
    end.
Proof.
  induction l1 as [|e l1 IH]; simpl; [reflexivity|].
  destruct (truthy (category e) && truthy (name e) && truthy (sourceUri e));
    [|exact IH].
  destruct (String.eqb (name e) n && String.eqb (category e) c);
    [reflexivity|exact IH].
Qed.

Lemma uriLoop_absent (n c : string) (entries : list Didact) :
  presentExactly n c (Some entries) = false -> uriLoop n c entries = None.
Proof.
  unfold presentExactly; simpl.
  induction entries as [|e rest IH]; simpl; [reflexivity|].
  intro H. apply orb_false_iff in H as [He Hrest].
  rewrite He.
  destruct (truthy (category e) && truthy (name e) && truthy (sourceUri e));
    exact (IH Hrest).
Qed.

End RegistryFacts.

Section RegistryClaims.
Import JS Utils Sample.

(** C1 (the code departs from the claim).  The duplicate test lowers the
    stored name and category and compares them with the new ones as given,
    so it is not symmetric in letter case: a pair with a capital letter is
    appended although the same pair, or its lower-case form, is already
    registered; only an all-lower-case new pair is refused. *)
Theorem C1_capitalised_duplicate_is_appended :
  registerTutorial "Foo" "file:///b.didact.md" "Cat" (Some [fooCat])
    = (Returned tt, Some [fooCat; mkDidact "Foo" "Cat" "file:///b.didact.md"])
  /\ registerTutorial "Foo" "file:///b.didact.md" "Cat" (Some [lowerFooCat])
    = (Returned tt, Some [lowerFooCat; mkDidact "Foo" "Cat" "file:///b.didact.md"])
  /\ registerTutorial "foo" "file:///b.didact.md" "cat" (Some [fooCat])
    = (Thrown (alreadyExists "foo" "cat"), Some [fooCat]).
Proof. repeat split; reflexivity. Qed.

(** C2, as the claim states it, fails: two tutorials registered under one
    category give that category twice. *)
Lemma C2_same_category_listed_twice :
  getDidactCategories (Some [fooCat; barCat]) = ["Cat"; "Cat"]
  /\ ~ NoDup (getDidactCategories (Some [fooCat; barCat])).
Proof.
  split; [reflexivity|].
  intro H. inversion H as [|x l Hnotin _]. apply Hnotin. now left.
Qed.

Lemma count_categories (c : string) (l : list Didact) :
  c <> EmptyString ->
  count_occ string_dec (map category (filter (fun e => truthy (category e)) l)) c
  = List.length (filter (fun e => String.eqb (category e) c) l).
Proof.
  intro Hc. induction l as [|e l IH]; simpl; [reflexivity|].
  destruct (truthy (category e)) eqn:T; simpl.
  - destruct (string_dec (category e) c) as [->|Hne].
    + rewrite String.eqb_refl. simpl. now rewrite IH.
    + apply String.eqb_neq in Hne. now rewrite Hne.
  - apply truthy_false_iff in T. rewrite T.
    destruct (String.eqb_spec EmptyString c) as [E|_]; [congruence|exact IH].
Qed.

(** C2 (amended).  [getDidactCategories] returns, in registration order,
    the category of every registration whose category is not empty,
    once per registration: a category is repeated as many times as
    tutorials are registered under it. *)
Theorem C2_one_category_per_registration (r : Registry) :
  getDidactCategories r
  = map category (filter (fun e => truthy (category e)) (registrations r))
  /\ forall c : string,
      c <> EmptyString ->
      count_occ string_dec (getDidactCategories r) c
      = List.length (filter (fun e => String.eqb (category e) c) (registrations r)).
Proof.
  split; [apply getDidactCategories_filter|].
  intros c Hc. rewrite getDidactCategories_filter. now apply count_categories.
Qed.

Lemma C2_one_category_per_registration_example :
  count_occ string_dec (getDidactCategories (Some [fooCat; barCat])) "Cat" = 2.
Proof.
  destruct (C2_one_category_per_registration (Some [fooCat; barCat])) as [_ H].
  rewrite (H "Cat"); [reflexivity|discriminate].
Defined.

(** C3 (the code departs from the claim).  The pair Foo/Cat is present,
    exactly and up to letter case; the second registration of it does not
    fail, and the registry grows from one registration to two.  This is
    the defect of C1: the new name and category are compared as given with
    the lowered stored ones. *)
Theorem C3_present_pair_is_registered_again :
  presentExactly "Foo" "Cat" (Some [fooCat]) = true
  /\ presentIgnoringCase "Foo" "Cat" (Some [fooCat]) = true
  /\ registerTutorial "Foo" "file:///b.didact.md" "Cat" (Some [fooCat])
     = (Returned tt, Some [fooCat; mkDidact "Foo" "Cat" "file:///b.didact.md"])
  /\ List.length (registrations (Some [fooCat])) = 1
  /\ List.length
       (registrations (Some [fooCat; mkDidact "Foo" "Cat" "file:///b.didact.md"]))
     = 2.
Proof. repeat split; reflexivity. Qed.

(** C4, as the claim states it, fails for the empty source URI, and for
    the empty name and the empty category as well: the registration
    succeeds and the lookup skips the new entry.  It also fails for a pair
    that is not stored as such but is the lower-case form of a stored one:
    the registration is refused. *)
Lemma C4_empty_sourceUri_is_not_resolved :
  presentIgnoringCase "Foo" "Cat" (Some [barCat]) = false
  /\ registerTutorial "Foo" EmptyString "Cat" (Some [barCat])
     = (Returned tt, Some [barCat; mkDidact "Foo" "Cat" EmptyString])
  /\ getUriForDidactNameAndCategory "Foo" "Cat"
       (Some [barCat; mkDidact "Foo" "Cat" EmptyString]) = None
  /\ getUriForDidactNameAndCategory "Foo" "Cat"
       (Some [barCat; mkDidact "Foo" "Cat" EmptyString]) <> Some EmptyString
  /\ registerTutorial EmptyString "file:///c.didact.md" "Cat" (Some [barCat])
     = (Returned tt, Some [barCat; unnamedCat])
  /\ getUriForDidactNameAndCategory EmptyString "Cat" (Some [barCat; unnamedCat])
     = None
  /\ registerTutorial "Foo" "file:///c.didact.md" EmptyString (Some [barCat])
     = (Returned tt, Some [barCat; uncategorised])
  /\ getUriForDidactNameAndCategory "Foo" EmptyString (Some [barCat; uncategorised])
     = None
  /\ presentExactly "foo" "cat" (Some [fooCat]) = false
  /\ registerTutorial "foo" "file:///b.didact.md" "cat" (Some [fooCat])
     = (Thrown (alreadyExists "foo" "cat"), Some [fooCat])
  /\ getUriForDidactNameAndCategory "foo" "cat" (Some [fooCat]) = None.
Proof. repeat split; try reflexivity. discriminate. Qed.

(** C4 (amended).  When no registration has the name and the category,
    neither as they are stored nor as the lower-case forms of the stored
    ones (the comparison the registration makes), the registration
    succeeds, and the lookup that follows returns exactly the source URI
    passed, provided name, category and source URI are all non-empty; it
    returns absent when one of them is empty.  A pair that no registration
    carries resolves to absent. *)
Theorem C4_round_trip_of_non_empty_fields
        {Str : Strings} (r : Registry) (n u c : string) :
  (presentExactly n c r = false ->
   (forall e : Didact,
       In e (registrations r) ->
       ~ (toLowerCase (name e) = n /\ toLowerCase (category e) = c)) ->
   exists r' : Registry,
     registerTutorial n u c r = (Returned tt, r')
     /\ getUriForDidactNameAndCategory n c r'
        = if truthy c && truthy n && truthy u then Some u else None)
  /\ (presentExactly n c r = false ->
      getUriForDidactNameAndCategory n c r = None).
Proof.
  assert (New : uriLoop n c [mkDidact n c u]
                = if truthy c && truthy n && truthy u then Some u else None).
  { simpl. rewrite !String.eqb_refl. simpl.
    destruct (truthy c && truthy n && truthy u); reflexivity. }
  split.
  - intros Absent Unlike. destruct r as [entries|].
    + exists (Some (entries ++ [mkDidact n c u])). split.
      * rewrite registerTutorial_defined.
        assert (E : existsb (detects n c) entries = false).
        { apply not_true_is_false. intro E.
          apply existsb_exists in E as [e [He D]].
          unfold detects in D.
          apply andb_true_iff in D as [D Ec]. apply andb_true_iff in D as [_ En].
          apply String.eqb_eq in En, Ec.
          exact (Unlike e He (conj En Ec)). }
        now rewrite E.
      * simpl. rewrite uriLoop_app, (uriLoop_absent n c entries Absent).
        exact New.
    + exists (Some [mkDidact n c u]). split; [reflexivity|exact New].
  - destruct r as [entries|]; [apply uriLoop_absent|reflexivity].
Qed.

Lemma C4_round_trip_example :
  exists r' : Registry,
    registerTutorial "Foo" "file:///a.didact.md" "Cat" (Some [barCat])
      = (Returned tt, r')
    /\ getUriForDidactNameAndCategory "Foo" "Cat" r' = Some "file:///a.didact.md".
Proof.
  destruct (C4_round_trip_of_non_empty_fields
              (Some [barCat]) "Foo" "file:///a.didact.md" "Cat") as [H _].
  apply H; [reflexivity|].
  simpl. intros e [<-|[]] [Name _]. discriminate Name.
Defined.

(** C5, as the claim states it, fails for a registration with an empty
    name, which is stored under the category and is not listed, and for
    the empty category, under which nothing is listed. *)
Lemma C5_unnamed_registration_is_not_listed :
  registerTutorial EmptyString "file:///c.didact.md" "Cat" (Some [])
    = (Returned tt, Some [unnamedCat])
  /\ getTutorialsForCategory "Cat" (Some [unnamedCat]) = []
  /\ map name (filter (fun e => String.eqb (category e) "Cat") [unnamedCat])
     = [EmptyString]
  /\ getTutorialsForCategory EmptyString (Some [uncategorised]) = []
  /\ map name (filter (fun e => String.eqb (category e) EmptyString) [uncategorised])
     = ["Foo"].
Proof. repeat split; reflexivity. Qed.

(** C5 (amended).  [getTutorialsForCategory c] returns, in registration
    order, exactly the names of the registrations whose name and category
    are not empty and whose stored category is [c], compared with
    regard to case; a category that differs from every stored category,
    be it in letter case only, gives the empty list. *)
Theorem C5_names_under_the_exact_category (r : Registry) (c : string) :
  getTutorialsForCategory c r
  = map name
        (filter (fun e => truthy (category e) && truthy (name e)
                          && String.eqb (category e) c)
                (registrations r))
  /\ ((forall e, In e (registrations r) -> category e <> c) ->
      getTutorialsForCategory c r = []).
Proof.
  split; [apply getTutorialsForCategory_filter|].
  intro Differs. rewrite getTutorialsForCategory_filter.
  induction (registrations r) as [|e l IH]; simpl; [reflexivity|].
  unfold listed at 1.
  assert (E : String.eqb (category e) c = false)
    by (apply String.eqb_neq, Differs; now left).
  rewrite E, andb_false_r. apply IH. intros e' He'. apply Differs. now right.
Qed.

Lemma C5_other_case_lists_nothing :
  getTutorialsForCategory "cat" (Some [fooCat; barCat]) = []
  /\ getTutorialsForCategory "Cat" (Some [fooCat; barCat]) = ["Foo"; "Bar"]
  /\ registerTutorial "foo" "file:///z.didact.md" "cat" (Some [fooCat; barCat])
     = (Thrown (alreadyExists "foo" "cat"), Some [fooCat; barCat]).
Proof.
  split; [|split; reflexivity].
  destruct (C5_names_under_the_exact_category (Some [fooCat; barCat]) "cat")
    as [_ H].
  apply H. simpl. intros e [<-|[<-|[]]]; discriminate.
Defined.

End RegistryClaims.

(** ** The tree *)

Section TreeFacts.
Import JS Html NodeProvider.

Lemma doesNodeExist_existsb (nodes : list SimpleNode) (n : SimpleNode) :
  doesNodeExist nodes n = existsb (fun m => String.eqb (label m) (label n)) nodes.
Proof.
  induction nodes as [|m nodes IH]; simpl; [reflexivity|].
  rewrite IH. now destruct (String.eqb (label m) (label n)).
Qed.

Lemma doesNodeExist_In (nodes : list SimpleNode) (n : SimpleNode) :
  doesNodeExist nodes n = true <-> In (label n) (map label nodes).
Proof.
  induction nodes as [|m nodes IH]; simpl.
  - split; [discriminate|tauto].
  - destruct (String.eqb_spec (label m) (label n)) as [E|NE].
    + split; auto.
    + rewrite IH. split; [auto|]. intros [E|H]; [congruence|exact H].
Qed.

Lemma doesNodeExist_label (nodes : list SimpleNode) (n m : SimpleNode) :
  label n = label m -> doesNodeExist nodes n = doesNodeExist nodes m.
Proof.
  intro E. rewrite !doesNodeExist_existsb, E. reflexivity.
Qed.

Lemma doesNodeExist_labels (nodes nodes' : list SimpleNode) (n : SimpleNode) :
  map label nodes = map label nodes' ->
  doesNodeExist nodes n = doesNodeExist nodes' n.
Proof.
  revert nodes'. induction nodes as [|m nodes IH]; intros [|m' nodes'] E;
    simpl in *; try discriminate; [reflexivity|].
  injection E as Em Erest. rewrite Em, (IH nodes' Erest). reflexivity.
Qed.

(** A node pushed behind the test keeps the labels distinct. *)
Lemma guarded_push (nodes : list SimpleNode) (tested pushed : SimpleNode) :
  label pushed = label tested ->
  NoDup (map label nodes) ->
  doesNodeExist nodes tested = false ->
  NoDup (map label (addChild pushed nodes)).
Proof.
  intros E ND Fresh. unfold addChild.
  rewrite map_app. simpl.
  apply NoDup_app.
  - exact ND.
  - constructor; [simpl; tauto|constructor].
  - intros l Hin [Hl|[]]. subst l.
    rewrite E in Hin. apply doesNodeExist_In in Hin. congruence.
Qed.

Lemma fold_left_invariant {A S} (P : S -> Prop) (f : S -> A -> S) :
  (forall s a, P s -> P (f s a)) ->
  forall (l : list A) (s : S), P s -> P (fold_left f l s).
Proof.
  intros Step l. induction l as [|a l IH]; intros s Hs; simpl; auto.
Qed.

End TreeFacts.

Section TreeClaims.
Import JS Html NodeProvider.
Context {Num : Numbers} {Ext : ExtensionFunctions}.

(** C10.  [findCategoryNode c] finds a node exactly when a top-level node
    is labelled [c]; what it returns is the node it has just built (a
    [TreeNode] with label [c], category [c], no uri, collapsed), so it is
    the same for any two lists of top-level nodes with the same labels. *)
Theorem C10_findCategoryNode_returns_a_fresh_node
        (c : string) (nodes : list SimpleNode) :
  (findCategoryNode c nodes <> None <-> exists n, In n nodes /\ label n = c)
  /\ (forall found : SimpleNode,
         findCategoryNode c nodes = Some found ->
         found = mkNode IsTreeNode c (Some c) None Collapsed None None None)
  /\ (forall nodes' : list SimpleNode,
         map label nodes' = map label nodes ->
         findCategoryNode c nodes' = findCategoryNode c nodes).
Proof.
  unfold findCategoryNode. repeat split.
  - destruct (doesNodeExist nodes _) eqn:E; [|congruence].
    intros _. apply doesNodeExist_In, in_map_iff in E as [n [Hl Hn]].
    exists n. split; [exact Hn|exact Hl].
  - intros [n [Hn Hl]].
    assert (E : doesNodeExist nodes (TreeNode (Some c) c None Collapsed) = true).
    { apply doesNodeExist_In. simpl. rewrite <- Hl. now apply in_map. }
    rewrite E. discriminate.
  - intros found. destruct (doesNodeExist nodes _); [|discriminate].
    intro H. injection H as <-. reflexivity.
  - intros nodes' E. now rewrite (doesNodeExist_labels nodes' nodes _ E).
Qed.

Lemma processRegisteredTutorials_distinct
      (r : Utils.Registry) (nodes : list SimpleNode) :
  NoDup (map label nodes) ->
  NoDup (map label (processRegisteredTutorials r nodes)).
Proof.
  unfold processRegisteredTutorials.
  apply (fold_left_invariant (fun s => NoDup (map label s))).
  intros s c Hs.
  destruct (doesNodeExist s (TreeNode (Some c) c None Collapsed)) eqn:E; simpl.
  - exact Hs.
  - now apply (guarded_push s _ _ eq_refl).
Qed.

Lemma processTutorialsForCategory_distinct
      (c : option string) (r : Utils.Registry) :
  NoDup (map label (processTutorialsForCategory c r)).
Proof.
  unfold processTutorialsForCategory.
  destruct c as [cat|]; [|constructor].
  destruct (truthy cat); [|constructor].
  apply (fold_left_invariant (fun s => NoDup (map label s))); [|constructor].
  intros s tutorial Hs.
  match goal with
  | |- context [let '(_, _) := ?X in _] => destruct X as [state timeLabel]
  end.
  match goal with
  | |- context [doesNodeExist s ?n] => destruct (doesNodeExist s n) eqn:E
  end; simpl.
  - exact Hs.
  - now apply (guarded_push s _ _ eq_refl).
Qed.

Lemma markdownHeading_distinct (u c : option string)
      (state : list SimpleNode * list string) (h : HTMLElement) :
  NoDup (map label (fst state)) ->
  NoDup (map label (fst (markdownHeading u c state h))).
Proof.
  destruct state as [children channel]. unfold markdownHeading. simpl.
  intro Hs.
  match goal with
  | |- context [if ?g then addChild _ _ else _] => destruct g eqn:G
  end.
  - apply andb_true_iff in G as [G _]. apply negb_true_iff in G.
    now apply (guarded_push children _ _ eq_refl).
  - exact Hs.
Qed.

Lemma asciidocHeading_distinct (u c : option string)
      (state : list SimpleNode * list string) (h : HTMLElement) :
  NoDup (map label (fst state)) ->
  NoDup (map label (fst (asciidocHeading u c state h))).
Proof.
  destruct state as [children channel]. unfold asciidocHeading.
  destruct (getNodeFromADOCDiv h u c) as [[node|] sent]; simpl; auto.
  intro Hs. destruct (doesNodeExist children node) eqn:E; simpl; auto.
  now apply (guarded_push children node (setContextValue "HeadingNode" node) eq_refl).
Qed.

Lemma processHeadingsForTutorial_distinct (u c : option string) :
  NoDup (map label (fst (processHeadingsForTutorial u c))).
Proof.
  unfold processHeadingsForTutorial.
  destruct u as [uri|]; [|constructor].
  destruct (truthy uri); [|constructor].
  destruct (getTimeElementsForDidactFileUri uri) as [hs|]; [|constructor].
  destruct (isAsciiDoc uri); simpl.
  - apply (fold_left_invariant (fun s => NoDup (map label (fst s))));
      [apply asciidocHeading_distinct|constructor].
  - apply (fold_left_invariant (fun s => NoDup (map label (fst s))));
      [apply markdownHeading_distinct|constructor].
Qed.

Lemma processRegisteredTutorials_adds_fresh
      (r : Utils.Registry) (nodes : list SimpleNode) :
  exists added : list SimpleNode,
    processRegisteredTutorials r nodes = nodes ++ added
    /\ NoDup (map label added)
    /\ forall n, In n added -> ~ In (label n) (map label nodes).
Proof.
  unfold processRegisteredTutorials.
  apply (fold_left_invariant
           (fun s => exists added,
                s = nodes ++ added
                /\ NoDup (map label added)
                /\ forall n, In n added -> ~ In (label n) (map label nodes))).
  - intros s c [added [-> [Distinct Fresh]]].
    destruct (doesNodeExist (nodes ++ added) (TreeNode (Some c) c None Collapsed))
      eqn:D; simpl.
    + now exists added.
    + assert (New : ~ In c (map label (nodes ++ added))).
      { intro Hin.
        assert (T : doesNodeExist (nodes ++ added)
                                  (TreeNode (Some c) c None Collapsed) = true)
          by now apply doesNodeExist_In.
        congruence. }
      rewrite map_app in New.
      exists (added ++ [TreeNode (Some c) c None Collapsed]). repeat split.
      * unfold addChild. now rewrite app_assoc.
      * rewrite map_app. simpl. apply NoDup_app.
        -- exact Distinct.
        -- constructor; [simpl; tauto|constructor].
        -- intros l Hl [<-|[]]. apply New. apply in_or_app. now right.
      * intros n Hn. apply in_app_or in Hn as [Hn|[<-|[]]]; [now apply Fresh|].
        simpl. intro Hin. apply New. apply in_or_app. now left.
  - exists []. repeat split; [now rewrite app_nil_r|constructor|intros n []].
Qed.

(** C9 (amended).  [doesNodeExist] is membership by equality of labels, and
    each of the three operations that insert nodes pushes a node only
    behind that test.  So [processRegisteredTutorials] keeps the nodes of
    the root and adds after them nodes with distinct labels that the root
    did not have, and hence keeps the labels of the root distinct when they
    are; a refresh gives distinct category labels; the tutorials of a
    category and the headings of a tutorial have distinct labels. *)
Theorem C9_insertions_are_behind_the_label_test :
  (forall (nodes : list SimpleNode) (n : SimpleNode),
      doesNodeExist nodes n = true
      <-> exists m, In m nodes /\ label m = label n)
  /\ (forall (r : Utils.Registry) (nodes : list SimpleNode),
         exists added : list SimpleNode,
           processRegisteredTutorials r nodes = nodes ++ added
           /\ NoDup (map label added)
           /\ forall n, In n added -> ~ In (label n) (map label nodes))
  /\ (forall (r : Utils.Registry) (nodes : list SimpleNode),
         NoDup (map label nodes) ->
         NoDup (map label (processRegisteredTutorials r nodes)))
  /\ (forall (r : Utils.Registry) (p : Provider),
         NoDup (map label (treeNodes (refresh r p))))
  /\ (forall (c : option string) (r : Utils.Registry),
         NoDup (map label (processTutorialsForCategory c r)))
  /\ (forall u c : option string,
         NoDup (map label (fst (processHeadingsForTutorial u c)))).
Proof.
  split; [|split; [|split; [|split; [|split]]]].
  - intros nodes n. rewrite doesNodeExist_In, in_map_iff. split.
    + intros [m [Hl Hm]]. now exists m.
    + intros [m [Hm Hl]]. now exists m.
  - apply processRegisteredTutorials_adds_fresh.
  - apply processRegisteredTutorials_distinct.
  - intros r p. unfold refresh, resetList. simpl.
    destruct (retrieveTutorials p); simpl; [|constructor].
    apply processRegisteredTutorials_distinct. constructor.
  - apply processTutorialsForCategory_distinct.
  - apply processHeadingsForTutorial_distinct.
Qed.

End TreeClaims.

Section HeadingClaims.
Import JS Html NodeProvider.
Context {Num : Numbers}.

(** C6 (amended).  One turn of the Markdown loop, for a heading [h]:
    when [Number] of its [time] attribute is [NaN], and so when the
    attribute is missing, the node built for it has no time label, is
    left out of the list, and exactly one warning is sent; when it is a
    number, no warning is sent and the node, labelled [(~N mins)], is
    pushed unless a sibling already has its title. *)
Theorem C6_markdown_heading_needs_a_number
        (u c : option string) (children : list SimpleNode)
        (channel : list string) (h : HTMLElement) :
  (isNaN (Number (getAttribute h "time")) = true ->
   markdownHeading u c (children, channel) h
   = (children, channel ++ [invalidTime (rawText h) (getAttribute h "time")]))
  /\ (getAttribute h "time" = None ->
      markdownHeading u c (children, channel) h
      = (children, channel ++ [invalidTime (rawText h) None]))
  /\ (isNaN (Number (getAttribute h "time")) = false ->
      markdownHeading u c (children, channel) h
      = (if existsb (fun sibling => String.eqb (label sibling) (rawText h)) children
         then children
         else children
                ++ [mkNode IsHeadingNode (rawText h) c u NoState
                           (Some (minutes (Number (getAttribute h "time"))))
                           (Some "HeadingNode") None],
         channel)).
Proof.
  assert (Invalid : isNaN (Number (getAttribute h "time")) = true ->
                    markdownHeading u c (children, channel) h
                    = (children,
                       channel ++ [invalidTime (rawText h) (getAttribute h "time")])).
  { intro E. unfold markdownHeading. rewrite E. simpl.
    now rewrite andb_false_r. }
  split; [exact Invalid|split].
  - intro Missing. rewrite Invalid; rewrite Missing; auto using Number_undefined.
  - intro E. unfold markdownHeading. rewrite E. simpl.
    rewrite andb_true_r, doesNodeExist_existsb. simpl.
    now destruct (existsb _ children).
Qed.

Lemma firstTagged_starts_with_H (children : list Node) (h : HTMLElement) :
  firstTagged children = Some h -> startsWith (tagName h) "H" = true.
Proof.
  induction children as [|[t|e] rest IH]; simpl; [discriminate|exact IH|].
  destruct (startsWith (tagName e) "H") eqn:E; [|exact IH].
  intro H. now injection H as <-.
Qed.

Lemma scanChildren_number (c u splitTime : option string) (t : number)
      (children : list Node) :
  isNaN t = false ->
  scanChildren c u splitTime t children
  = (option_map (fun h => HeadingNode c (innerText h) u (Some (minutes t)))
                (firstTagged children), []).
Proof.
  intro E. induction children as [|[text|e] rest IH]; simpl; auto.
  destruct (startsWith (tagName e) "H"); [|exact IH].
  now rewrite E.
Qed.

Lemma scanChildren_NaN (c u splitTime : option string) (t : number)
      (children : list Node) :
  isNaN t = true -> fst (scanChildren c u splitTime t children) = None.
Proof.
  intro E. induction children as [|[text|e] rest IH]; simpl; auto.
  destruct (startsWith (tagName e) "H"); [|exact IH].
  rewrite E. simpl.
  destruct (scanChildren c u splitTime t rest) as [found sent]. exact IH.
Qed.

Lemma scanChildren_title (c u splitTime : option string) (t : number)
      (children : list Node) (node : SimpleNode) (sent : list string) :
  scanChildren c u splitTime t children = (Some node, sent) ->
  exists h, firstTagged children = Some h /\ label node = innerText h.
Proof.
  destruct (isNaN t) eqn:E.
  - intro H. pose proof (scanChildren_NaN c u splitTime t children E) as F.
    rewrite H in F. discriminate.
  - rewrite (scanChildren_number _ _ _ _ _ E).
    destruct (firstTagged children) as [h|]; simpl; [|discriminate].
    intro H. injection H as <- _. now exists h.
Qed.

Lemma scanChunks_title (div : HTMLElement) (c u : option string)
      (chunks : list string) (node : SimpleNode) (sent : list string) :
  scanChunks div c u chunks = (Some node, sent) ->
  exists h, firstTagged (childNodes div) = Some h /\ label node = innerText h.
Proof.
  revert sent. induction chunks as [|chunk rest IH]; intro sent; simpl;
    [discriminate|].
  destruct (startsWith chunk "time="); [|apply IH].
  destruct (Nat.ltb 0 (List.length (childNodes div))).
  - destruct (scanChildren c u _ _ (childNodes div)) as [[found|] sent0] eqn:S.
    + intro H. injection H as <- _. exact (scanChildren_title _ _ _ _ _ _ _ S).
    + destruct (scanChunks div c u rest) as [found' sent'].
      intro H. injection H as -> _. exact (IH _ eq_refl).
  - destruct (scanChunks div c u rest) as [found' sent'].
    intro H. injection H as -> _. exact (IH _ eq_refl).
Qed.

(** C7 (amended).  For a div whose class attribute is [time=10 foo] and
    whose first child element with a tag name starting with H is an H2
    with visible text [Step One], [getNodeFromADOCDiv] returns a heading
    node labelled [Step One] with description [(~10 mins)], and sends no
    warning ([Number] of the text 10 being the number written 10). *)
Theorem C7_section_takes_the_title_of_its_first_heading
        (div h : HTMLElement) (u c : option string) :
  getAttribute div "class" = Some "time=10 foo" ->
  firstTagged (childNodes div) = Some h ->
  tagName h = "H2" ->
  innerText h = "Step One" ->
  isNaN (Number (Some "10")) = false ->
  toString (Number (Some "10")) = "10" ->
  getNodeFromADOCDiv div u c
  = (Some (HeadingNode c "Step One" u (Some "(~10 mins)")), []).
Proof.
  intros Class First Tag Text Valid Shown.
  unfold getNodeFromADOCDiv. rewrite Class.
  change (split " " "time=10 foo") with ["time=10"; "foo"].
  cbn [truthy scanChunks].
  change (startsWith "time=10" "time=") with true.
  change (nth_error (split "=" "time=10") 1) with (Some "10").
  cbv iota.
  assert (NonEmpty : Nat.ltb 0 (List.length (childNodes div)) = true).
  { destruct (childNodes div); [discriminate|reflexivity]. }
  rewrite NonEmpty, (scanChildren_number _ _ _ _ _ Valid), First.
  simpl. unfold minutes. now rewrite Text, Shown.
Qed.

(** C8 (amended).  Whenever [getNodeFromADOCDiv] produces a node for a
    div, the title of the node is the visible text of the first child
    element whose tag name starts with the letter H: one of H1..H6, or any
    other tag with that initial, such as HR or HEADER, when it comes
    first. *)
Theorem C8_title_comes_from_first_child_tagged_H
        (div : HTMLElement) (u c : option string)
        (node : SimpleNode) (sent : list string) :
  getNodeFromADOCDiv div u c = (Some node, sent) ->
  exists h : HTMLElement,
    firstTagged (childNodes div) = Some h
    /\ startsWith (tagName h) "H" = true
    /\ label node = innerText h.
Proof.
  unfold getNodeFromADOCDiv.
  destruct (getAttribute div "class") as [classAttr|]; [|discriminate].
  destruct (truthy classAttr); [|discriminate].
  intro H. destruct (scanChunks_title _ _ _ _ _ _ H) as [h [First Title]].
  exists h. repeat split; auto.
  exact (firstTagged_starts_with_H _ _ First).
Qed.

End HeadingClaims.

(** ** The claims on concrete documents *)

Section TreeExamples.
Import JS Html NodeProvider Sample.

(** C6, as the claim states it, fails: a Markdown heading whose time is
    not a number gives no heading at all, only the warning; and a heading
    with a valid time whose title a sibling already has is not added. *)
Lemma C6_invalid_time_gives_no_heading :
  isNaN (Number (getAttribute (timedHeading "Setup" "abc") "time")) = true
  /\ markdownHeading (Some "file:///c.didact.md") (Some "Cat") ([], [])
                     (timedHeading "Setup" "abc")
     = ([], [invalidTime "Setup" (Some "abc")])
  /\ processHeadingsForTutorial (Some "file:///c.didact.md") (Some "Cat")
     = ([], [invalidTime "Setup" (Some "abc")])
  /\ ~ (exists heading : SimpleNode,
          In heading (fst (processHeadingsForTutorial
                             (Some "file:///c.didact.md") (Some "Cat")))
          /\ description heading = None)
  /\ markdownHeading (Some "file:///a.didact.md") (Some "Cat")
       ([HeadingNode (Some "Cat") "Intro" (Some "file:///a.didact.md")
                     (Some "(~5 mins)")], [])
       (timedHeading "Intro" "7")
     = ([HeadingNode (Some "Cat") "Intro" (Some "file:///a.didact.md")
                     (Some "(~5 mins)")], []).
Proof.
  repeat split; try reflexivity.
  intros [heading [Listed _]]. exact Listed.
Qed.

Lemma C6_markdown_heading_examples :
  markdownHeading (Some "file:///a.didact.md") (Some "Cat") ([], [])
                  (timedHeading "Intro" "5")
  = ([mkNode IsHeadingNode "Intro" (Some "Cat") (Some "file:///a.didact.md")
             NoState (Some "(~5 mins)") (Some "HeadingNode") None], [])
  /\ markdownHeading (Some "file:///a.didact.md") (Some "Cat") ([], [])
                     (timedHeading "Setup" "abc")
     = ([], [invalidTime "Setup" (Some "abc")])
  /\ markdownHeading (Some "file:///a.didact.md") (Some "Cat") ([], [])
                     (untimedHeading "Notes")
     = ([], [invalidTime "Notes" None]).
Proof.
  split; [|split].
  - destruct (C6_markdown_heading_needs_a_number
                (Some "file:///a.didact.md") (Some "Cat") [] []
                (timedHeading "Intro" "5")) as [_ [_ H]].
    exact (H eq_refl).
  - destruct (C6_markdown_heading_needs_a_number
                (Some "file:///a.didact.md") (Some "Cat") [] []
                (timedHeading "Setup" "abc")) as [H _].
    exact (H eq_refl).
  - destruct (C6_markdown_heading_needs_a_number
                (Some "file:///a.didact.md") (Some "Cat") [] []
                (untimedHeading "Notes")) as [_ [H _]].
    exact (H eq_refl).
Defined.

(** C7, as the claim states it, fails: with an H1 before the H2, the
    node is titled by the H1. *)
Lemma C7_earlier_heading_gives_the_title :
  In (child "H2" "Step One")
     (childNodes (section [child "H1" "Overview"; child "H2" "Step One"]))
  /\ getAttribute (section [child "H1" "Overview"; child "H2" "Step One"]) "class"
     = Some "time=10 foo"
  /\ getNodeFromADOCDiv (section [child "H1" "Overview"; child "H2" "Step One"])
                        (Some "file:///b.didact.adoc") (Some "Cat")
     = (Some (HeadingNode (Some "Cat") "Overview" (Some "file:///b.didact.adoc")
                          (Some "(~10 mins)")), []).
Proof. repeat split; try reflexivity. simpl. auto. Qed.

Lemma C7_section_example :
  getNodeFromADOCDiv (section [TextNode " "; child "H2" "Step One"; rule])
                     (Some "file:///b.didact.adoc") (Some "Cat")
  = (Some (HeadingNode (Some "Cat") "Step One" (Some "file:///b.didact.adoc")
                       (Some "(~10 mins)")), []).
Proof.
  apply (C7_section_takes_the_title_of_its_first_heading
           (section [TextNode " "; child "H2" "Step One"; rule])
           (mkElement "H2" [] [TextNode "Step One"] "Step One" "Step One"));
    reflexivity.
Defined.

(** C8, as the claim states it, fails: a HEADER, or an HR, that comes
    before the H2 supplies the title. *)
Lemma C8_other_tags_supply_the_title :
  getNodeFromADOCDiv (section [child "HEADER" "Banner"; child "H2" "Step One"])
                     (Some "file:///b.didact.adoc") (Some "Cat")
  = (Some (HeadingNode (Some "Cat") "Banner" (Some "file:///b.didact.adoc")
                       (Some "(~10 mins)")), [])
  /\ getNodeFromADOCDiv (section [rule; child "H2" "Step One"])
                        (Some "file:///b.didact.adoc") (Some "Cat")
     = (Some (HeadingNode (Some "Cat") EmptyString (Some "file:///b.didact.adoc")
                          (Some "(~10 mins)")), []).
Proof. split; reflexivity. Qed.

Lemma C8_title_example :
  exists h : HTMLElement,
    firstTagged (childNodes (section [child "HEADER" "Banner"; child "H2" "Step One"]))
    = Some h
    /\ startsWith (tagName h) "H" = true
    /\ label (HeadingNode (Some "Cat") "Banner" (Some "file:///b.didact.adoc")
                          (Some "(~10 mins)")) = innerText h.
Proof.
  apply (C8_title_comes_from_first_child_tagged_H
           (section [child "HEADER" "Banner"; child "H2" "Step One"])
           (Some "file:///b.didact.adoc") (Some "Cat") _ []).
  reflexivity.
Defined.

(** C9, as the claim states it, fails: [addChild] pushes without the test,
    so the root can hold two nodes with one label, and
    [processRegisteredTutorials] leaves them there. *)
Lemma C9_addChild_pushes_an_equal_label :
  map label
      (treeNodes
         (snd (addChildToTree (TreeNode (Some "Cat") "Cat" None Collapsed) true
                 (Some [fooCat])
                 (snd (addChildToTree storedCat true (Some [fooCat])
                                      (mkProvider [] true))))))
  = ["Cat"; "Cat"]
  /\ ~ NoDup ["Cat"; "Cat"]
  /\ map label
        (processRegisteredTutorials
           (Some [fooCat])
           [storedCat; TreeNode (Some "Cat") "Cat" None Collapsed])
     = ["Cat"; "Cat"].
Proof.
  split; [reflexivity|split; [|reflexivity]].
  intro H. inversion H as [|x l Hnotin _]. apply Hnotin. now left.
Qed.

Lemma C9_insertions_example :
  NoDup (map label (processRegisteredTutorials (Some [fooCat; barCat]) [storedCat]))
  /\ NoDup (map label (fst (processHeadingsForTutorial
                                (Some "file:///a.didact.md") (Some "Cat"))))
  /\ doesNodeExist [storedCat] (TreeNode (Some "Cat") "Cat" None Collapsed) = true.
Proof.
  destruct C9_insertions_are_behind_the_label_test
    as [Test [_ [Root [_ [_ Headings]]]]].
  split; [|split].
  - apply Root. simpl. constructor; [simpl; tauto|constructor].
  - apply Headings.
  - apply Test. exists storedCat. split; [now left|reflexivity].
Defined.

Lemma C10_stored_fields_are_not_returned :
  findCategoryNode "Cat" [storedCat]
  = Some (mkNode IsTreeNode "Cat" (Some "Cat") None Collapsed None None None).
Proof.
  destruct (C10_findCategoryNode_returns_a_fresh_node "Cat" [storedCat])
    as [[_ Found] [Fresh _]].
  destruct (findCategoryNode "Cat" [storedCat]) as [found|] eqn:E.
  - f_equal. now apply Fresh.
  - exfalso. apply Found; [|reflexivity].
    exists storedCat. split; [now left|reflexivity].
Defined.

(** The tree of the sample workspace. *)
Example sample_categories :
  processRegisteredTutorials (Some [fooCat; barCat]) []
  = [TreeNode (Some "Cat") "Cat" None Collapsed].
Proof. reflexivity. Qed.

Example sample_headings :
  processHeadingsForTutorial (Some "file:///a.didact.md") (Some "Cat")
  = ([mkNode IsHeadingNode "Intro" (Some "Cat") (Some "file:///a.didact.md")
             NoState (Some "(~5 mins)") (Some "HeadingNode") None],
     [invalidTime "Setup" (Some "abc"); invalidTime "Notes" None]).
Proof. reflexivity. Qed.

Example sample_sections :
  processHeadingsForTutorial (Some "file:///b.didact.adoc") (Some "Cat")
  = ([mkNode IsHeadingNode "Step One" (Some "Cat") (Some "file:///b.didact.adoc")
             NoState (Some "(~10 mins)") (Some "HeadingNode") None], []).
Proof. reflexivity. Qed.

Example sample_tutorials :
  map (fun n => (label n, description n, collapsibleState n))
      (processTutorialsForCategory (Some "Cat") (Some [fooCat; barCat; fooCat]))
  = [("Foo", Some "(~12 mins)", Collapsed); ("Bar", None, NoState)].
Proof. reflexivity. Qed.

End TreeExamples.

(** * Further properties of the registry *)

Section RegistryMore.
Import JS Utils.
Context {Str : Strings}.

Lemma detects_iff (n c : string) (e : Didact) :
  detects n c e = true
  <-> name e <> EmptyString /\ category e <> EmptyString
      /\ toLowerCase (name e) = n /\ toLowerCase (category e) = c.
Proof.
  unfold detects. rewrite !andb_true_iff, !truthy_true_iff, !String.eqb_eq.
  tauto.
Qed.

(** X1.  [registerTutorial] throws exactly when some registration with a
    non-empty name and category has, once lowered, the name and the
    category passed, taken as they are. *)
Theorem registerTutorial_throws_iff (r : Registry) (n u c : string) :
  (exists (message : string) (r' : Registry),
      registerTutorial n u c r = (Thrown message, r'))
  <-> exists e : Didact,
      In e (registrations r)
      /\ name e <> EmptyString /\ category e <> EmptyString
      /\ toLowerCase (name e) = n /\ toLowerCase (category e) = c.
Proof.
  destruct r as [entries|]; simpl.
  - rewrite registerTutorial_defined. split.
    + intros [message [r' H]].
      destruct (existsb (detects n c) entries) eqn:E; [|discriminate].
      apply existsb_exists in E as [e [He D]].
      exists e. split; [exact He|]. now apply detects_iff.
    + intros [e [He D]].
      assert (E : existsb (detects n c) entries = true).
      { apply existsb_exists. exists e. split; [exact He|]. now apply detects_iff. }
      rewrite E. eauto.
  - rewrite registerTutorial_undefined. split.
    + intros [message [r' H]]. discriminate.
    + intros [e [[] _]].
Qed.

(** X2.  In a runtime where lowering twice is lowering once and only the
    empty string lowers to the empty string, a registration is refused only
    if its name and its category are non-empty and are their own
    lower-case forms; the registry then holds the pair up to letter case,
    and the error is the already-exists message. *)
Theorem registerTutorial_refuses_lower_case_only
        (r r' : Registry) (n u c message : string) :
  (forall s, toLowerCase (toLowerCase s) = toLowerCase s) ->
  (forall s, toLowerCase s = EmptyString -> s = EmptyString) ->
  registerTutorial n u c r = (Thrown message, r') ->
  toLowerCase n = n /\ toLowerCase c = c
  /\ n <> EmptyString /\ c <> EmptyString
  /\ presentIgnoringCase n c r = true
  /\ message = alreadyExists n c.
Proof.
  intros Idem NonEmpty.
  destruct r as [entries|]; [|rewrite registerTutorial_undefined; discriminate].
  rewrite registerTutorial_defined.
  destruct (existsb (detects n c) entries) eqn:E; [|discriminate].
  intro H. injection H as <- _.
  apply existsb_exists in E as [e [He D]].
  pose proof (detects_present _ _ _ Idem D) as P.
  apply detects_iff in D as [Hn [Hc [En Ec]]].
  repeat split.
  - rewrite <- En. apply Idem.
  - rewrite <- Ec. apply Idem.
  - intro Z. subst n. now apply Hn, NonEmpty.
  - intro Z. subst c. now apply Hc, NonEmpty.
  - unfold presentIgnoringCase. apply existsb_exists. now exists e.
Qed.

(** X21.  A call of [registerTutorial] that fails leaves the setting as it
    was: the list of registrations after the call is the list before it,
    and its length with it. *)
Theorem failed_registration_changes_nothing
        (r r' : Registry) (n u c message : string) :
  registerTutorial n u c r = (Thrown message, r') ->
  r' = r
  /\ registrations r' = registrations r
  /\ List.length (registrations r') = List.length (registrations r).
Proof.
  destruct r as [entries|].
  - rewrite registerTutorial_defined.
    destruct (existsb (detects n c) entries); intro H; inversion H; auto.
  - rewrite registerTutorial_undefined. discriminate.
Qed.

(** X3.  A registration that succeeds leaves a defined registry: the
    registrations it had, in their order, followed by the new one. *)
Theorem registerTutorial_appends (r r' : Registry) (n u c : string) :
  registerTutorial n u c r = (Returned tt, r') ->
  r' = Some (registrations r ++ [mkDidact n c u]).
Proof.
  destruct r as [entries|]; simpl.
  - rewrite registerTutorial_defined.
    destruct (existsb (detects n c) entries); [discriminate|].
    intro H. now injection H as <-.
  - rewrite registerTutorial_undefined. intro H. now injection H as <-.
Qed.

Lemma uriLoop_found (n c u : string) (entries : list Didact) :
  uriLoop n c entries = Some u ->
  exists before e after,
    entries = before ++ e :: after
    /\ name e = n /\ category e = c /\ sourceUri e = u
    /\ n <> EmptyString /\ c <> EmptyString /\ u <> EmptyString
    /\ forall e', In e' before ->
                  ~ (name e' = n /\ category e' = c /\ sourceUri e' <> EmptyString).
Proof.
  induction entries as [|e rest IH]; simpl; [discriminate|].
  destruct (truthy (category e) && truthy (name e) && truthy (sourceUri e)) eqn:T.
  - destruct (String.eqb (name e) n && String.eqb (category e) c) eqn:M.
    + intro H. injection H as <-.
      apply andb_true_iff in M as [Mn Mc].
      apply String.eqb_eq in Mn, Mc.
      apply andb_true_iff in T as [T Tu]. apply andb_true_iff in T as [Tc Tn].
      apply truthy_true_iff in Tu, Tc, Tn.
      exists [], e, rest. subst n c. repeat split; auto.
    + intro H. destruct (IH H) as [before [e0 [after [E [? [? [? [? [? [? First]]]]]]]]]].
      exists (e :: before), e0, after. subst rest. repeat split; auto.
      intros e' [<-|In'] Same; [|exact (First e' In' Same)].
      destruct Same as [En [Ec _]].
      rewrite <- En, <- Ec, !String.eqb_refl in M. discriminate.
  - intro H. destruct (IH H) as [before [e0 [after [E [? [? [? [? [? [? First]]]]]]]]]].
    exists (e :: before), e0, after. subst rest. repeat split; auto.
    intros e' [<-|In'] Same; [|exact (First e' In' Same)].
    destruct Same as [En [Ec Eu]].
    apply truthy_true_iff in Eu.
    assert (Tn : truthy (name e) = true) by (apply truthy_true_iff; congruence).
    assert (Tc : truthy (category e) = true) by (apply truthy_true_iff; congruence).
    rewrite Tn, Tc, Eu in T. discriminate.
Qed.

Lemma getUri_not_empty (r : Registry) (n c u : string) :
  getUriForDidactNameAndCategory n c r = Some u -> u <> EmptyString.
Proof.
  destruct r as [entries|]; simpl; [|discriminate].
  intro H. apply uriLoop_found in H
    as [before [e [after [_ [_ [_ [_ [_ [_ [Hu _]]]]]]]]]].
  exact Hu.
Qed.

(** X4.  What [getUriForDidactNameAndCategory] returns is never the empty
    string: it is the source URI of the first registration that has the
    name and the category exactly and a non-empty source URI, and name and
    category are then non-empty too. *)
Theorem getUri_is_first_resolvable (r : Registry) (n c u : string) :
  getUriForDidactNameAndCategory n c r = Some u ->
  exists before e after,
    registrations r = before ++ e :: after
    /\ name e = n /\ category e = c /\ sourceUri e = u
    /\ n <> EmptyString /\ c <> EmptyString /\ u <> EmptyString
    /\ forall e', In e' before ->
                  ~ (name e' = n /\ category e' = c /\ sourceUri e' <> EmptyString).
Proof.
  destruct r as [entries|]; simpl; [apply uriLoop_found|discriminate].
Qed.

End RegistryMore.

Section ReadersMore.
Import JS Utils.
Context {Str : Strings}.

(** X5.  After a registration that succeeds, the list of categories is the
    old one followed by the new category when it is not empty, the
    tutorials of every category are the old ones followed by the new name
    when the new registration belongs there, and every pair that resolved
    to a source URI before still resolves to the same one. *)
Theorem registerTutorial_extends_the_readers (r r' : Registry) (n u c : string) :
  registerTutorial n u c r = (Returned tt, r') ->
  getDidactCategories r' = getDidactCategories r ++ (if truthy c then [c] else [])
  /\ (forall c' : string,
         getTutorialsForCategory c' r'
         = getTutorialsForCategory c' r
             ++ (if listed c' (mkDidact n c u) then [n] else []))
  /\ (forall n' c' u' : string,
         getUriForDidactNameAndCategory n' c' r = Some u' ->
         getUriForDidactNameAndCategory n' c' r' = Some u').
Proof.
  intro H.
  assert (E : r' = Some (registrations r ++ [mkDidact n c u])).
  { destruct r as [entries|]; simpl.
    - rewrite registerTutorial_defined in H.
      destruct (existsb (detects n c) entries); [discriminate|].
      now injection H as <-.
    - rewrite registerTutorial_undefined in H. now injection H as <-. }
  subst r'. repeat split.
  - rewrite !getDidactCategories_filter. simpl.
    rewrite filter_app, map_app. simpl. now destruct (truthy c).
  - intro c'. rewrite !getTutorialsForCategory_filter. simpl.
    rewrite filter_app, map_app. simpl.
    now destruct (listed c' (mkDidact n c u)).
  - intros n' c' u' Found. simpl. rewrite uriLoop_app.
    destruct r as [entries|]; simpl in *; [now rewrite Found|discriminate].
Qed.

(** X6.  The three readers agree: a pair that resolves to a source URI is
    listed among the tutorials of its category, and a name listed under a
    category is not empty and its category, not empty either, is among the
    categories. *)
Theorem readers_agree (r : Registry) (n c : string) :
  (forall u : string,
      getUriForDidactNameAndCategory n c r = Some u ->
      In n (getTutorialsForCategory c r))
  /\ (In n (getTutorialsForCategory c r) ->
      n <> EmptyString /\ c <> EmptyString /\ In c (getDidactCategories r)).
Proof.
  rewrite getTutorialsForCategory_filter, getDidactCategories_filter. split.
  - intros u Found.
    destruct r as [entries|]; simpl in *; [|discriminate].
    induction entries as [|e rest IH]; simpl in *; [discriminate|].
    unfold listed at 1.
    destruct (truthy (category e) && truthy (name e)) eqn:T; simpl in *.
    + destruct (truthy (sourceUri e)); simpl in *.
      * destruct (String.eqb (name e) n) eqn:En; simpl in *.
        -- destruct (String.eqb (category e) c); simpl in *.
           ++ left. now apply String.eqb_eq.
           ++ auto.
        -- destruct (String.eqb (category e) c); simpl; auto.
      * destruct (String.eqb (category e) c); simpl; auto.
    + auto.
  - intro Listed. apply in_map_iff in Listed as [e [En He]].
    apply filter_In in He as [He L]. unfold listed in L.
    apply andb_true_iff in L as [L Ec]. apply andb_true_iff in L as [Tc Tn].
    apply String.eqb_eq in Ec. subst n c.
    repeat split; try now apply truthy_true_iff.
    apply in_map_iff. exists e. split; [reflexivity|].
    apply filter_In. now split.
Qed.

(** Once the registry is cleared nothing is left to read, and any
    registration succeeds and is then the only one, whatever the registry
    held before. *)
Lemma clear_then_register (r : Registry) (n u c : string) :
  (exists r0 : Registry,
      clearRegisteredTutorials r = (Returned tt, r0)
      /\ getDidactCategories r0 = []
      /\ (forall c', getTutorialsForCategory c' r0 = [])
      /\ (forall n' c', getUriForDidactNameAndCategory n' c' r0 = None))
  /\ bind clearRegisteredTutorials (fun _ => registerTutorial n u c) r
     = (Returned tt, Some [mkDidact n c u]).
Proof.
  split; [|reflexivity].
  exists None. repeat split.
Qed.

(** X7.  On every platform [pathEquals] is an equivalence of paths; on
    linux it is equality of the two strings, elsewhere equality of their
    lower-case forms, so that paths equal on linux are equal everywhere. *)
Theorem pathEquals_is_an_equivalence (platform : string) :
  (forall p, pathEquals platform p p = true)
  /\ (forall p q, pathEquals platform p q = pathEquals platform q p)
  /\ (forall p q s, pathEquals platform p q = true ->
                    pathEquals platform q s = true ->
                    pathEquals platform p s = true)
  /\ (forall p q, pathEquals "linux" p q = true <-> p = q)
  /\ (forall p q, platform <> "linux" ->
                  (pathEquals platform p q = true <-> toLowerCase p = toLowerCase q))
  /\ (forall p q, pathEquals "linux" p q = true -> pathEquals platform p q = true).
Proof.
  unfold pathEquals.
  destruct (String.eqb_spec platform "linux") as [Linux|Other]; simpl.
  - repeat split; intros;
      repeat match goal with
             | H : String.eqb _ _ = true |- _ => apply String.eqb_eq in H
             end; subst;
      try apply String.eqb_refl; try apply String.eqb_sym;
      try (apply String.eqb_eq; reflexivity); try congruence; auto.
  - repeat split; intros;
      repeat match goal with
             | H : String.eqb _ _ = true |- _ => apply String.eqb_eq in H
             end; subst;
      try apply String.eqb_refl; try apply String.eqb_sym;
      try (apply String.eqb_eq; congruence); try congruence; auto.
Qed.

End ReadersMore.

Section RegistryExamples.
Import JS Utils Sample.

Lemma registerTutorial_refuses_example :
  toLowerCase "foo" = "foo" /\ toLowerCase "cat" = "cat"
  /\ "foo" <> EmptyString /\ "cat" <> EmptyString
  /\ presentIgnoringCase "foo" "cat" (Some [fooCat]) = true
  /\ alreadyExists "foo" "cat" = alreadyExists "foo" "cat".
Proof.
  apply (registerTutorial_refuses_lower_case_only
           (Some [fooCat]) (Some [fooCat]) "foo" "file:///z.didact.md" "cat").
  - exact asciiToLowerCase_idempotent.
  - exact asciiToLowerCase_empty.
  - reflexivity.
Defined.

Lemma failed_registration_example :
  presentIgnoringCase "foo" "cat" (Some [fooCat; barCat]) = true
  /\ registerTutorial "foo" "file:///z.didact.md" "cat" (Some [fooCat; barCat])
     = (Thrown (alreadyExists "foo" "cat"), Some [fooCat; barCat])
  /\ List.length (registrations (Some [fooCat; barCat])) = 2.
Proof.
  split; [reflexivity|].
  assert (E : registerTutorial "foo" "file:///z.didact.md" "cat" (Some [fooCat; barCat])
              = (Thrown (alreadyExists "foo" "cat"), Some [fooCat; barCat]))
    by reflexivity.
  split; [exact E|].
  destruct (failed_registration_changes_nothing _ _ _ _ _ _ E) as [_ [_ H]].
  exact H.
Defined.

Lemma registerTutorial_appends_example :
  Some [Sample.fooCat; mkDidact "Foo" "Cat" "file:///b.didact.md"]
  = Some (registrations (Some [Sample.fooCat])
            ++ [mkDidact "Foo" "Cat" "file:///b.didact.md"]).
Proof.
  apply (registerTutorial_appends (Str := AsciiStrings) (Some [Sample.fooCat]) _
                                  "Foo" "file:///b.didact.md" "Cat").
  reflexivity.
Defined.

Lemma getUri_is_first_resolvable_example :
  exists before e after,
    registrations (Some [Sample.barCat; Sample.fooCat;
                         mkDidact "Foo" "Cat" "file:///b.didact.md"])
    = before ++ e :: after
    /\ name e = "Foo" /\ category e = "Cat" /\ sourceUri e = "file:///a.didact.md"
    /\ "Foo" <> EmptyString /\ "Cat" <> EmptyString
    /\ "file:///a.didact.md" <> EmptyString
    /\ forall e', In e' before ->
                  ~ (name e' = "Foo" /\ category e' = "Cat"
                     /\ sourceUri e' <> EmptyString).
Proof.
  apply getUri_is_first_resolvable. reflexivity.
Defined.

Lemma registerTutorial_extends_the_readers_example :
  getDidactCategories (Some [Sample.fooCat; mkDidact "Foo" "Cat" "file:///b.didact.md"])
  = getDidactCategories (Some [Sample.fooCat]) ++ ["Cat"]
  /\ getUriForDidactNameAndCategory
       "Foo" "Cat" (Some [Sample.fooCat; mkDidact "Foo" "Cat" "file:///b.didact.md"])
     = Some "file:///a.didact.md".
Proof.
  destruct (registerTutorial_extends_the_readers
              (Str := AsciiStrings)
              (Some [Sample.fooCat]) _ "Foo" "file:///b.didact.md" "Cat" eq_refl)
    as [Categories [_ Uris]].
  split; [exact Categories|].
  apply Uris. reflexivity.
Defined.

Lemma readers_agree_example :
  In "Foo" (getTutorialsForCategory "Cat" (Some [Sample.barCat; Sample.fooCat]))
  /\ "Foo" <> EmptyString /\ "Cat" <> EmptyString
  /\ In "Cat" (getDidactCategories (Some [Sample.barCat; Sample.fooCat])).
Proof.
  destruct (readers_agree (Some [Sample.barCat; Sample.fooCat]) "Foo" "Cat")
    as [Listed Categories].
  split; [exact (Listed _ eq_refl)|].
  apply Categories. exact (Listed _ eq_refl).
Defined.

Lemma pathEquals_example :
  pathEquals "win32" "C:\Users\Me\a.didact.md" "c:\users\me\A.didact.md" = true.
Proof.
  destruct (pathEquals_is_an_equivalence "win32") as [_ [_ [_ [_ [Other _]]]]].
  apply Other; [discriminate|reflexivity].
Defined.

End RegistryExamples.

(** * Further properties of the tree *)

Section FoldFacts.
Import JS Html NodeProvider.

Lemma firstOccurrences_snoc (l : list string) (x : string) :
  firstOccurrences (l ++ [x])
  = if existsb (String.eqb x) (firstOccurrences l)
    then firstOccurrences l
    else firstOccurrences l ++ [x].
Proof.
  unfold firstOccurrences. rewrite rev_app_distr. simpl.
  destruct (in_dec string_dec x (rev l)) as [Hin|Hout].
  - assert (E : existsb (String.eqb x) (rev (nodup string_dec (rev l))) = true).
    { apply existsb_exists. exists x. split; [|apply String.eqb_refl].
      apply in_rev. rewrite rev_involutive. now apply nodup_In. }
    now rewrite E.
  - assert (E : existsb (String.eqb x) (rev (nodup string_dec (rev l))) = false).
    { apply not_true_is_false. intro E. apply existsb_exists in E as [y [Hy Exy]].
      apply String.eqb_eq in Exy. subst y. apply Hout.
      apply in_rev in Hy. now apply nodup_In in Hy. }
    now rewrite E.
Qed.

Lemma firstOccurrences_In (l : list string) (x : string) :
  In x (firstOccurrences l) <-> In x l.
Proof.
  unfold firstOccurrences. rewrite <- in_rev, nodup_In, <- in_rev. tauto.
Qed.

Lemma firstOccurrences_NoDup (l : list string) : NoDup (firstOccurrences l).
Proof.
  unfold firstOccurrences. apply NoDup_rev, NoDup_nodup.
Qed.

Lemma fold_left_pointwise {A S} (f g : S -> A -> S) (l : list A) (s : S) :
  (forall s a, f s a = g s a) -> fold_left f l s = fold_left g l s.
Proof.
  intro E. revert s. induction l as [|a l IH]; intro s; simpl; [reflexivity|].
  now rewrite E, IH.
Qed.

Lemma fold_left_invariant_in {A S} (P : S -> Prop) (f : S -> A -> S) (l : list A) :
  (forall s a, In a l -> P s -> P (f s a)) ->
  forall s : S, P s -> P (fold_left f l s).
Proof.
  induction l as [|a l IH]; intros Step s Hs; simpl; [exact Hs|].
  apply IH.
  - intros s' a' Ha'. apply Step. now right.
  - apply Step; [now left|exact Hs].
Qed.

(** The labels a loop that pushes behind [doesNodeExist] leaves. *)
Lemma guarded_fold_labels {X} (build : X -> SimpleNode) (l : list X) :
  map label
      (fold_left (fun acc x => if negb (doesNodeExist acc (build x))
                               then addChild (build x) acc else acc) l [])
  = firstOccurrences (map (fun x => label (build x)) l).
Proof.
  induction l as [|x l IH] using rev_ind; [reflexivity|].
  rewrite fold_left_app, map_app. simpl. rewrite firstOccurrences_snoc, <- IH.
  rewrite doesNodeExist_existsb.
  match goal with
  | |- context [fold_left ?f l []] => generalize (fold_left f l []); intro nodes
  end.
  assert (E : existsb (fun m => String.eqb (label m) (label (build x))) nodes
              = existsb (String.eqb (label (build x))) (map label nodes)).
  { induction nodes as [|m nodes IHn]; simpl; [reflexivity|].
    now rewrite IHn, String.eqb_sym. }
  rewrite E. destruct (existsb _ (map label nodes)); simpl; [reflexivity|].
  unfold addChild. now rewrite map_app.
Qed.

(** The nodes such a loop leaves are nodes it built. *)
Lemma guarded_fold_members {X} (build : X -> SimpleNode) (l : list X) (n : SimpleNode) :
  In n (fold_left (fun acc x => if negb (doesNodeExist acc (build x))
                                then addChild (build x) acc else acc) l []) ->
  exists x, In x l /\ n = build x.
Proof.
  revert n.
  apply (fold_left_invariant_in
           (fun s => forall n, In n s -> exists x, In x l /\ n = build x)).
  - intros s a Ha Hs n.
    destruct (doesNodeExist s (build a)); simpl; [apply Hs|].
    unfold addChild. intro Hn. apply in_app_or in Hn as [Hn|[<-|[]]]; [now apply Hs|].
    now exists a.
  - intros n [].
Qed.

End FoldFacts.

Section CategoryLayer.
Import JS Html NodeProvider.

Lemma category_nodes_from_labels (nodes : list SimpleNode) :
  (forall n, In n nodes -> n = TreeNode (Some (label n)) (label n) None Collapsed) ->
  nodes = map (fun c => TreeNode (Some c) c None Collapsed) (map label nodes).
Proof.
  induction nodes as [|n nodes IH]; intro H; simpl; [reflexivity|].
  rewrite <- IH; [|intros m Hm; apply H; now right].
  f_equal. apply H. now left.
Qed.

Lemma processRegisteredTutorials_from_empty (r : Utils.Registry) :
  processRegisteredTutorials r []
  = map (fun c => TreeNode (Some c) c None Collapsed)
        (firstOccurrences (Utils.getDidactCategories r)).
Proof.
  unfold processRegisteredTutorials.
  pose (build := fun c : string => TreeNode (Some c) c None Collapsed).
  change (fold_left _ (Utils.getDidactCategories r) [])
    with (fold_left (fun acc x => if negb (doesNodeExist acc (build x))
                                  then addChild (build x) acc else acc)
                    (Utils.getDidactCategories r) []).
  rewrite <- (map_id (Utils.getDidactCategories r)) at 2.
  rewrite <- (guarded_fold_labels build).
  apply category_nodes_from_labels.
  intros n Hn. apply guarded_fold_members in Hn as [c [_ ->]]. reflexivity.
Qed.

(** X8.  A refresh forgets the nodes the tree held: with retrieval on, the
    top level is one collapsed category node (label and category the
    category, no uri) for each distinct non-empty category of the registry,
    in the order of first registration; with retrieval off it is empty. *)
Theorem refresh_rebuilds_the_categories (r : Utils.Registry) (p : Provider) :
  refresh r p
  = mkProvider
      (if retrieveTutorials p
       then map (fun c => TreeNode (Some c) c None Collapsed)
                (firstOccurrences (Utils.getDidactCategories r))
       else [])
      (retrieveTutorials p).
Proof.
  unfold refresh, resetList. simpl.
  destruct (retrieveTutorials p); [|reflexivity].
  now rewrite processRegisteredTutorials_from_empty.
Qed.

Lemma labels_grow (cats : list string) (nodes : list SimpleNode) (x : string) :
  In x (map label nodes) ->
  In x (map label
            (fold_left
               (fun treeNodes category0 =>
                  let newNode := TreeNode (Some category0) category0 None Collapsed in
                  if negb (doesNodeExist treeNodes newNode)
                  then addChild newNode treeNodes
                  else treeNodes)
               cats nodes)).
Proof.
  revert nodes. induction cats as [|c cats IH]; intros nodes Hx; simpl; [exact Hx|].
  apply IH. destruct (doesNodeExist nodes _); simpl; [exact Hx|].
  unfold addChild. rewrite map_app. apply in_or_app. now left.
Qed.

Lemma processed_categories_are_labels (r : Utils.Registry) (nodes : list SimpleNode)
      (c : string) :
  In c (Utils.getDidactCategories r) ->
  In c (map label (processRegisteredTutorials r nodes)).
Proof.
  unfold processRegisteredTutorials.
  generalize (Utils.getDidactCategories r) as cats. intro cats.
  revert nodes. induction cats as [|c0 cats IH]; intros nodes Hc; simpl;
    [contradiction|].
  destruct Hc as [E|Hin].
  - subst c0. apply labels_grow.
    destruct (doesNodeExist nodes (TreeNode (Some c) c None Collapsed)) eqn:D; simpl.
    + now apply doesNodeExist_In in D.
    + unfold addChild. rewrite map_app. apply in_or_app. right. now left.
  - now apply IH.
Qed.

Lemma nothing_to_add (cats : list string) (nodes : list SimpleNode) :
  (forall c, In c cats -> In c (map label nodes)) ->
  fold_left
    (fun treeNodes category0 =>
       let newNode := TreeNode (Some category0) category0 None Collapsed in
       if negb (doesNodeExist treeNodes newNode)
       then addChild newNode treeNodes
       else treeNodes)
    cats nodes = nodes.
Proof.
  induction cats as [|c cats IH]; intro H; simpl; [reflexivity|].
  assert (D : doesNodeExist nodes (TreeNode (Some c) c None Collapsed) = true).
  { apply doesNodeExist_In. apply H. now left. }
  rewrite D. simpl. apply IH. intros c' Hc'. apply H. now right.
Qed.

(** X9.  [processRegisteredTutorials] only adds at the end: the nodes the
    tree holds stay, in their order, and what follows them are category
    nodes of registered categories whose labels the tree did not have.
    Run a second time on its own result it adds nothing. *)
Theorem processRegisteredTutorials_only_adds (r : Utils.Registry)
        (nodes : list SimpleNode) :
  (exists added : list SimpleNode,
      processRegisteredTutorials r nodes = nodes ++ added
      /\ forall n, In n added ->
                   n = TreeNode (Some (label n)) (label n) None Collapsed
                   /\ In (label n) (Utils.getDidactCategories r)
                   /\ ~ In (label n) (map label nodes))
  /\ processRegisteredTutorials r (processRegisteredTutorials r nodes)
     = processRegisteredTutorials r nodes.
Proof.
  split.
  - unfold processRegisteredTutorials.
    apply (fold_left_invariant_in
             (fun s => exists added,
                  s = nodes ++ added
                  /\ forall n, In n added ->
                               n = TreeNode (Some (label n)) (label n) None Collapsed
                               /\ In (label n) (Utils.getDidactCategories r)
                               /\ ~ In (label n) (map label nodes))).
    + intros s c Hc [added [-> Hadded]].
      destruct (doesNodeExist (nodes ++ added) (TreeNode (Some c) c None Collapsed))
        eqn:D; simpl.
      * now exists added.
      * exists (added ++ [TreeNode (Some c) c None Collapsed]). split.
        -- unfold addChild. now rewrite app_assoc.
        -- intros n Hn. apply in_app_or in Hn as [Hn|[<-|[]]]; [now apply Hadded|].
           simpl. repeat split; [exact Hc|].
           intro Hin.
           assert (T : doesNodeExist (nodes ++ added)
                                     (TreeNode (Some c) c None Collapsed) = true).
           { apply doesNodeExist_In. simpl. rewrite map_app.
             apply in_or_app. now left. }
           congruence.
    + exists []. split; [now rewrite app_nil_r|intros n []].
  - unfold processRegisteredTutorials at 1. apply nothing_to_add.
    intros c Hc. now apply processed_categories_are_labels.
Qed.

End CategoryLayer.

Section TutorialLayer.
Import JS Html NodeProvider.
Context {Num : Numbers} {Ext : ExtensionFunctions}.

(** X10.  The children of a non-empty category are tutorial nodes, one for
    each distinct name listed under the category, in the order of first
    registration.  Each carries the category, the source URI the registry
    resolves its name to, and the context value [TutorialNode].  When that
    URI is defined and the time computed for it is positive the node is
    collapsed and described by that time; when the URI is defined and the
    time is not positive, and when the URI is undefined, it has neither
    state nor description. *)
Theorem tutorials_of_a_category (c : string) (r : Utils.Registry) :
  c <> EmptyString ->
  map label (processTutorialsForCategory (Some c) r)
  = firstOccurrences (Utils.getTutorialsForCategory c r)
  /\ forall n : SimpleNode,
      In n (processTutorialsForCategory (Some c) r) ->
      class n = IsTutorialNode
      /\ category n = Some c
      /\ contextValue n = Some "TutorialNode"
      /\ uri n = Utils.getUriForDidactNameAndCategory (label n) c r
      /\ In (label n) (Utils.getTutorialsForCategory c r)
      /\ match uri n with
         | Some u =>
             if positive (computeTimeForDidactFileUri u)
             then collapsibleState n = Collapsed
                  /\ description n = Some (minutes (computeTimeForDidactFileUri u))
             else collapsibleState n = NoState /\ description n = None
         | None => collapsibleState n = NoState /\ description n = None
         end.
Proof.
  intro Hc. apply truthy_true_iff in Hc.
  unfold processTutorialsForCategory. rewrite Hc.
  pose (build := fun tutorial : string =>
    let tutUri := Utils.getUriForDidactNameAndCategory tutorial c r in
    let '(hasChildren, timeLabel) :=
      match tutUri with
      | Some u =>
          if truthy u then
            let timeCount := computeTimeForDidactFileUri u in
            if positive timeCount
            then (Collapsed, Some (minutes timeCount))
            else (NoState, None)
          else (NoState, None)
      | None => (NoState, None)
      end in
    setContextValue "TutorialNode"
      (TutorialNode (Some c) tutorial tutUri hasChildren timeLabel)).
  rewrite (fold_left_pointwise
             _ (fun acc x => if negb (doesNodeExist acc (build x))
                             then addChild (build x) acc else acc)).
  2:{ intros s t. unfold build.
      destruct (Utils.getUriForDidactNameAndCategory t c r) as [u|];
        [destruct (truthy u); [destruct (positive (computeTimeForDidactFileUri u))|]|];
        reflexivity. }
  assert (Label : forall t, label (build t) = t).
  { intro t. unfold build.
    destruct (Utils.getUriForDidactNameAndCategory t c r) as [u|];
      [destruct (truthy u); [destruct (positive (computeTimeForDidactFileUri u))|]|];
      reflexivity. }
  split.
  - rewrite guarded_fold_labels. f_equal.
    rewrite (map_ext _ (fun t => t) Label). apply map_id.
  - intros n Hn. apply guarded_fold_members in Hn as [t [Ht ->]].
    rewrite Label. unfold build.
    destruct (Utils.getUriForDidactNameAndCategory t c r) as [u|] eqn:U.
    + assert (Tu : truthy u = true).
      { apply getUri_not_empty in U. now apply truthy_true_iff. }
      rewrite Tu.
      destruct (positive (computeTimeForDidactFileUri u)) eqn:P;
        simpl; rewrite ?P; repeat split; auto.
    + simpl. repeat split; auto.
Qed.

End TutorialLayer.

Lemma tutorials_of_a_category_example :
  map NodeProvider.label
      (@NodeProvider.processTutorialsForCategory Sample.DigitNumbers Sample.Workspace
         (Some "Cat") (Some [Sample.fooCat; Sample.barCat; Sample.fooCat]))
  = ["Foo"; "Bar"]
  /\ (NodeProvider.collapsibleState
        (@NodeProvider.tutorialNodeOf Sample.DigitNumbers Sample.Workspace
           "Cat" (Some [Sample.fooCat; Sample.barCat; Sample.fooCat]) "Foo")
      = NodeProvider.Collapsed
      /\ NodeProvider.description
           (@NodeProvider.tutorialNodeOf Sample.DigitNumbers Sample.Workspace
              "Cat" (Some [Sample.fooCat; Sample.barCat; Sample.fooCat]) "Foo")
         = Some "(~12 mins)")
  /\ (NodeProvider.collapsibleState
        (@NodeProvider.tutorialNodeOf Sample.DigitNumbers Sample.Workspace
           "Cat" (Some [Sample.fooCat; Sample.barCat; Sample.fooCat]) "Bar")
      = NodeProvider.NoState
      /\ NodeProvider.description
           (@NodeProvider.tutorialNodeOf Sample.DigitNumbers Sample.Workspace
              "Cat" (Some [Sample.fooCat; Sample.barCat; Sample.fooCat]) "Bar")
         = None).
Proof.
  destruct (@tutorials_of_a_category Sample.DigitNumbers Sample.Workspace "Cat"
              (Some [Sample.fooCat; Sample.barCat; Sample.fooCat]))
    as [Labels Nodes]; [discriminate|].
  split; [exact Labels|split].
  - destruct (Nodes (@NodeProvider.tutorialNodeOf Sample.DigitNumbers Sample.Workspace
                       "Cat" (Some [Sample.fooCat; Sample.barCat; Sample.fooCat]) "Foo"))
      as [_ [_ [_ [_ [_ State]]]]]; [left; reflexivity|exact State].
  - destruct (Nodes (@NodeProvider.tutorialNodeOf Sample.DigitNumbers Sample.Workspace
                       "Cat" (Some [Sample.fooCat; Sample.barCat; Sample.fooCat]) "Bar"))
      as [_ [_ [_ [_ [_ State]]]]]; [right; left; reflexivity|exact State].
Defined.

Section SectionDivs.
Import JS Html NodeProvider.
Context {Num : Numbers}.

Lemma firstTagged_head (children : list Node) :
  firstTagged children = hd_error (taggedChildren children).
Proof.
  induction children as [|[text|e] rest IH]; simpl; auto.
  now destruct (startsWith (tagName e) "H").
Qed.

(** The inner loop, whole: a number returns at the first tagged child and
    sends nothing; [NaN] returns nothing and sends a line per tagged child. *)
Lemma scanChildren_spec (c u v : option string) (t : number) (children : list Node) :
  scanChildren c u v t children
  = if isNaN t
    then (None, map (fun h => invalidTime (innerText h) v) (taggedChildren children))
    else (option_map (fun h => HeadingNode c (innerText h) u (Some (minutes t)))
                     (firstTagged children), []).
Proof.
  destruct (isNaN t) eqn:E; [|now apply scanChildren_number].
  induction children as [|[text|e] rest IH]; simpl; auto.
  destruct (startsWith (tagName e) "H"); [|exact IH].
  rewrite E, IH. reflexivity.
Qed.

(** The test on the number of children changes nothing. *)
Lemma scanChildren_guard (c u v : option string) (t : number) (children : list Node) :
  (if Nat.ltb 0 (List.length children)
   then scanChildren c u v t children
   else (None, []))
  = scanChildren c u v t children.
Proof. destruct children; reflexivity. Qed.

Lemma scanChunks_step (div : HTMLElement) (c u : option string)
      (chunk : string) (rest : list string) :
  scanChunks div c u (chunk :: rest)
  = if startsWith chunk "time=" then
      let '(found, sent) :=
        scanChildren c u (timeOf chunk) (Number (timeOf chunk)) (childNodes div) in
      match found with
      | Some node => (Some node, sent)
      | None =>
          let '(found', sent') := scanChunks div c u rest in
          (found', sent ++ sent')
      end
    else scanChunks div c u rest.
Proof.
  simpl. destruct (startsWith chunk "time="); [|reflexivity].
  unfold timeOf. now rewrite scanChildren_guard.
Qed.

Lemma scanChunks_found (div : HTMLElement) (c u : option string)
      (chunks : list string) (node : SimpleNode) (sent : list string) :
  scanChunks div c u chunks = (Some node, sent) ->
  exists before chunk after h,
    chunks = before ++ chunk :: after
    /\ startsWith chunk "time=" = true
    /\ isNaN (Number (timeOf chunk)) = false
    /\ (forall b, In b before -> startsWith b "time=" = true ->
                  isNaN (Number (timeOf b)) = true)
    /\ firstTagged (childNodes div) = Some h
    /\ node = HeadingNode c (innerText h) u (Some (minutes (Number (timeOf chunk))))
    /\ sent = flat_map (warningsOf (childNodes div)) before.
Proof.
  revert sent. induction chunks as [|chunk rest IH]; intro sent;
    [discriminate|].
  rewrite scanChunks_step.
  destruct (startsWith chunk "time=") eqn:T.
  - rewrite scanChildren_spec.
    destruct (isNaN (Number (timeOf chunk))) eqn:N.
    + destruct (scanChunks div c u rest) as [found' sent'].
      intro H. injection H as -> <-.
      destruct (IH _ eq_refl) as [before [ch [after [h [E [Tc [Nc [B [F [Nd S]]]]]]]]]].
      exists (chunk :: before), ch, after, h. subst rest.
      repeat split; auto.
      * intros b [<-|Hb] Tb; [exact N|now apply B].
      * simpl. unfold warningsOf at 1. now rewrite T, S.
    + destruct (firstTagged (childNodes div)) as [h|] eqn:F; simpl.
      * intro H. injection H as <- <-.
        exists [], chunk, rest, h. repeat split; auto.
      * destruct (scanChunks div c u rest) as [found' sent'].
        intro H. injection H as -> <-.
        destruct (IH _ eq_refl) as [before [ch [after [h [_ [_ [_ [_ [F' _]]]]]]]]].
        discriminate.
  - intro H.
    destruct (IH _ H) as [before [ch [after [h [E [Tc [Nc [B [F [Nd S]]]]]]]]]].
    exists (chunk :: before), ch, after, h. subst rest.
    repeat split; auto.
    + intros b [<-|Hb] Tb; [congruence|now apply B].
    + simpl. unfold warningsOf at 1. now rewrite T.
Qed.

Lemma scanChunks_nothing (div : HTMLElement) (c u : option string)
      (chunks : list string) (sent : list string) :
  scanChunks div c u chunks = (None, sent) ->
  sent = flat_map (warningsOf (childNodes div)) chunks
  /\ (taggedChildren (childNodes div) = []
      \/ forall b, In b chunks -> startsWith b "time=" = true ->
                   isNaN (Number (timeOf b)) = true).
Proof.
  revert sent. induction chunks as [|chunk rest IH]; intro sent.
  - simpl. intro H. injection H as <-. split; [reflexivity|]. right. intros b [].
  - rewrite scanChunks_step. simpl flat_map. unfold warningsOf at 1.
    destruct (startsWith chunk "time=") eqn:T.
    + rewrite scanChildren_spec.
      destruct (isNaN (Number (timeOf chunk))) eqn:N.
      * destruct (scanChunks div c u rest) as [found' sent'].
        intro H. injection H as -> <-.
        destruct (IH _ eq_refl) as [S Why]. split; [now rewrite S|].
        destruct Why as [Empty|All]; [now left|right].
        intros b [<-|Hb] Tb; [exact N|now apply All].
      * rewrite firstTagged_head.
        destruct (taggedChildren (childNodes div)) as [|h tagged] eqn:G; simpl;
          [|discriminate].
        destruct (scanChunks div c u rest) as [found' sent'].
        intro H. injection H as -> <-.
        destruct (IH _ eq_refl) as [S _]. split; [exact S|now left].
    + intro H. destruct (IH _ H) as [S Why]. split; [exact S|].
      destruct Why as [Empty|All]; [now left|right].
      intros b [<-|Hb] Tb; [congruence|now apply All].
Qed.

Lemma warnings_count (children : list Node) (chunks : list string) :
  List.length (flat_map (warningsOf children) chunks)
  = List.length (filter (fun chunk => startsWith chunk "time=") chunks)
    * List.length (taggedChildren children).
Proof.
  induction chunks as [|chunk rest IH]; simpl; [reflexivity|].
  rewrite length_app, IH. unfold warningsOf.
  destruct (startsWith chunk "time="); simpl; [|reflexivity].
  now rewrite length_map.
Qed.

(** X11.  When [getNodeFromADOCDiv] returns a node, the class attribute has
    a first piece [time=v] with [v] a number: the node is a heading node
    with the category and uri passed, titled by the first child tagged H
    and described by that number, and the lines sent are those of the
    pieces before it, one per tagged child for each [time=] piece. *)
Theorem getNodeFromADOCDiv_takes_the_first_number
        (div : HTMLElement) (u c : option string)
        (node : SimpleNode) (sent : list string) :
  getNodeFromADOCDiv div u c = (Some node, sent) ->
  exists classAttr before chunk after h,
    getAttribute div "class" = Some classAttr
    /\ split " " classAttr = before ++ chunk :: after
    /\ startsWith chunk "time=" = true
    /\ isNaN (Number (timeOf chunk)) = false
    /\ (forall b, In b before -> startsWith b "time=" = true ->
                  isNaN (Number (timeOf b)) = true)
    /\ firstTagged (childNodes div) = Some h
    /\ node = HeadingNode c (innerText h) u (Some (minutes (Number (timeOf chunk))))
    /\ sent = flat_map (warningsOf (childNodes div)) before.
Proof.
  unfold getNodeFromADOCDiv.
  destruct (getAttribute div "class") as [classAttr|]; [|discriminate].
  destruct (truthy classAttr); [|discriminate].
  intro H. apply scanChunks_found in H
    as [before [chunk [after [h [E [T [N [B [F [Nd S]]]]]]]]]].
  exists classAttr, before, chunk, after, h. repeat split; auto.
Qed.

(** X12.  When [getNodeFromADOCDiv] returns no node, either no child is
    tagged H and nothing was sent, or every [time=] piece of the class
    attribute names no number; the lines sent are then one per tagged
    child for each [time=] piece, in the order of the pieces. *)
Theorem getNodeFromADOCDiv_without_a_number
        (div : HTMLElement) (u c : option string) (sent : list string) :
  getNodeFromADOCDiv div u c = (None, sent) ->
  let chunks :=
    match getAttribute div "class" with
    | Some classAttr => split " " classAttr
    | None => []
    end in
  sent = flat_map (warningsOf (childNodes div)) chunks
  /\ List.length sent
     = List.length (filter (fun chunk => startsWith chunk "time=") chunks)
       * List.length (taggedChildren (childNodes div))
  /\ (taggedChildren (childNodes div) = []
      \/ forall b, In b chunks -> startsWith b "time=" = true ->
                   isNaN (Number (timeOf b)) = true).
Proof.
  intros H chunks. unfold getNodeFromADOCDiv in H.
  assert (Main : sent = flat_map (warningsOf (childNodes div)) chunks
                 /\ (taggedChildren (childNodes div) = []
                     \/ forall b, In b chunks -> startsWith b "time=" = true ->
                                  isNaN (Number (timeOf b)) = true)).
  { subst chunks. destruct (getAttribute div "class") as [classAttr|].
    - destruct classAttr as [|a rest].
      + simpl in H. injection H as <-. split; [reflexivity|].
        right. simpl. intros b [<-|[]] Tb. discriminate Tb.
      + cbn [truthy] in H. exact (scanChunks_nothing _ _ _ _ _ H).
    - injection H as <-. split; [reflexivity|]. right. intros b []. }
  destruct Main as [S Why]. repeat split; auto.
  rewrite S. apply warnings_count.
Qed.

End SectionDivs.

Section SectionDivExamples.
Import JS Html NodeProvider Sample.

Lemma getNodeFromADOCDiv_takes_the_first_number_example :
  exists classAttr before chunk after h,
    getAttribute
      (sectionOfClass "sect1 time=abc time=10" [child "H2" "Step One"; child "H3" "More"])
      "class" = Some classAttr
    /\ split " " classAttr = before ++ chunk :: after
    /\ startsWith chunk "time=" = true
    /\ isNaN (Number (timeOf chunk)) = false
    /\ (forall b, In b before -> startsWith b "time=" = true ->
                  isNaN (Number (timeOf b)) = true)
    /\ firstTagged [child "H2" "Step One"; child "H3" "More"] = Some h
    /\ HeadingNode (Some "Cat") "Step One" (Some "file:///b.didact.adoc")
                   (Some "(~10 mins)")
       = HeadingNode (Some "Cat") (innerText h) (Some "file:///b.didact.adoc")
                     (Some (minutes (Number (timeOf chunk))))
    /\ [invalidTime "Step One" (Some "abc"); invalidTime "More" (Some "abc")]
       = flat_map (warningsOf [child "H2" "Step One"; child "H3" "More"]) before.
Proof.
  apply (getNodeFromADOCDiv_takes_the_first_number
           (sectionOfClass "sect1 time=abc time=10"
                           [child "H2" "Step One"; child "H3" "More"])
           (Some "file:///b.didact.adoc") (Some "Cat")).
  reflexivity.
Defined.

Lemma getNodeFromADOCDiv_without_a_number_example :
  List.length [invalidTime "Step One" (Some "abc");
               invalidTime EmptyString (Some "abc");
               invalidTime "More" (Some "abc");
               invalidTime "Step One" (Some "x");
               invalidTime EmptyString (Some "x");
               invalidTime "More" (Some "x")]
  = 2 * 3.
Proof.
  destruct (getNodeFromADOCDiv_without_a_number
              (Num := DigitNumbers)
              (sectionOfClass "time=abc sect1 time=x=1"
                              [child "H2" "Step One"; rule;
                               child "P" "text"; child "H3" "More"])
              (Some "file:///b.didact.adoc") (Some "Cat")
              [invalidTime "Step One" (Some "abc");
               invalidTime EmptyString (Some "abc");
               invalidTime "More" (Some "abc");
               invalidTime "Step One" (Some "x");
               invalidTime EmptyString (Some "x");
               invalidTime "More" (Some "x")]
              eq_refl)
    as [_ [Count _]].
  exact Count.
Defined.

End SectionDivExamples.

Section HeadingLayer.
Import JS Html NodeProvider.
Context {Num : Numbers} {Ext : ExtensionFunctions}.

Lemma getNodeFromADOCDiv_shape (div : HTMLElement) (u c : option string)
      (node : SimpleNode) (sent : list string) :
  getNodeFromADOCDiv div u c = (Some node, sent) ->
  exists (title : string) (t : number),
    isNaN t = false /\ node = HeadingNode c title u (Some (minutes t)).
Proof.
  unfold getNodeFromADOCDiv.
  destruct (getAttribute div "class") as [classAttr|]; [|discriminate].
  destruct (truthy classAttr); [|discriminate].
  intro H. apply scanChunks_found in H
    as [before [chunk [after [h [_ [_ [N [_ [_ [Nd _]]]]]]]]]].
  now exists (innerText h), (Number (timeOf chunk)).
Qed.

Lemma heading_nodes (u c : option string) (n : SimpleNode) :
  In n (fst (processHeadingsForTutorial u c)) ->
  class n = IsHeadingNode /\ uri n = u /\ category n = c
  /\ contextValue n = Some "HeadingNode" /\ collapsibleState n = NoState
  /\ exists t : number, isNaN t = false /\ description n = Some (minutes t).
Proof.
  revert n. unfold processHeadingsForTutorial.
  destruct u as [s|]; [|intros n []].
  destruct (truthy s); [|intros n []].
  destruct (getTimeElementsForDidactFileUri s) as [hs|]; [|intros n []].
  destruct (isAsciiDoc s); simpl.
  - apply (fold_left_invariant
             (fun st => forall n, In n (fst st) ->
                class n = IsHeadingNode /\ uri n = Some s /\ category n = c
                /\ contextValue n = Some "HeadingNode" /\ collapsibleState n = NoState
                /\ exists t : number, isNaN t = false
                                      /\ description n = Some (minutes t)));
      [|intros n []].
    intros [children channel] div Hs. unfold asciidocHeading.
    destruct (getNodeFromADOCDiv div (Some s) c) as [[node|] sent] eqn:G;
      simpl; [|exact Hs].
    destruct (doesNodeExist children node); simpl; [exact Hs|].
    intros n Hn. unfold addChild in Hn.
    apply in_app_or in Hn as [Hn|[<-|[]]]; [now apply Hs|].
    apply getNodeFromADOCDiv_shape in G as [title [t [Nt ->]]].
    simpl. repeat split. now exists t.
  - apply (fold_left_invariant
             (fun st => forall n, In n (fst st) ->
                class n = IsHeadingNode /\ uri n = Some s /\ category n = c
                /\ contextValue n = Some "HeadingNode" /\ collapsibleState n = NoState
                /\ exists t : number, isNaN t = false
                                      /\ description n = Some (minutes t)));
      [|intros n []].
    intros [children channel] h Hs. unfold markdownHeading. simpl.
    match goal with
    | |- context [if ?g then addChild _ _ else _] => destruct g eqn:G
    end; [|exact Hs].
    intros n Hn. unfold addChild in Hn.
    apply in_app_or in Hn as [Hn|[<-|[]]]; [now apply Hs|].
    destruct (isNaN (Number (getAttribute h "time"))) eqn:Nt; simpl in *.
    + rewrite andb_false_r in G. discriminate.
    + repeat split. now exists (Number (getAttribute h "time")).
Qed.

Lemma no_heading_without_uri (u c : option string) :
  (u = None \/ u = Some EmptyString
   \/ exists s, u = Some s /\ getTimeElementsForDidactFileUri s = None) ->
  processHeadingsForTutorial u c = ([], []).
Proof.
  intros [->|[->|[s [-> E]]]]; try reflexivity.
  unfold processHeadingsForTutorial. rewrite E.
  now destruct (truthy s).
Qed.

(** X13.  Every node of the heading layer is a heading node with the uri
    and the category of its tutorial, the context value [HeadingNode], no
    collapsible state, and a time label made from a number: no heading
    without a time enters the tree.  Without a uri, with the empty uri, or
    when the document gives no elements, there is no heading and no line
    is sent. *)
Theorem headings_carry_tutorial_and_time (u c : option string) :
  (forall n : SimpleNode,
      In n (fst (processHeadingsForTutorial u c)) ->
      class n = IsHeadingNode /\ uri n = u /\ category n = c
      /\ contextValue n = Some "HeadingNode" /\ collapsibleState n = NoState
      /\ exists t : number, isNaN t = false /\ description n = Some (minutes t))
  /\ ((u = None \/ u = Some EmptyString
       \/ exists s, u = Some s /\ getTimeElementsForDidactFileUri s = None) ->
      processHeadingsForTutorial u c = ([], [])).
Proof.
  split; [apply heading_nodes|apply no_heading_without_uri].
Qed.

Lemma markdownHeading_step (u c : option string) (children : list SimpleNode)
      (channel : list string) (h : HTMLElement) :
  markdownHeading u c (children, channel) h
  = if isNaN (Number (getAttribute h "time"))
    then (children, channel ++ [invalidTime (rawText h) (getAttribute h "time")])
    else (if negb (doesNodeExist children
                     (setContextValue "HeadingNode"
                        (HeadingNode c (rawText h) u
                           (Some (minutes (Number (getAttribute h "time")))))))
          then addChild
                 (setContextValue "HeadingNode"
                    (HeadingNode c (rawText h) u
                       (Some (minutes (Number (getAttribute h "time"))))))
                 children
          else children,
          channel).
Proof.
  unfold markdownHeading.
  destruct (isNaN (Number (getAttribute h "time"))); simpl.
  - now rewrite andb_false_r.
  - now rewrite andb_true_r.
Qed.

(** The Markdown loop, as two loops: one over the headings with a number,
    one over the others. *)
Lemma markdown_fold (u c : option string) (hs : list HTMLElement)
      (children : list SimpleNode) (channel : list string) :
  fold_left (markdownHeading u c) hs (children, channel)
  = (fold_left
       (fun acc h =>
          if negb (doesNodeExist acc
                     (setContextValue "HeadingNode"
                        (HeadingNode c (rawText h) u
                           (Some (minutes (Number (getAttribute h "time")))))))
          then addChild
                 (setContextValue "HeadingNode"
                    (HeadingNode c (rawText h) u
                       (Some (minutes (Number (getAttribute h "time"))))))
                 acc
          else acc)
       (filter (fun h => negb (isNaN (Number (getAttribute h "time")))) hs)
       children,
     channel
       ++ map (fun h => invalidTime (rawText h) (getAttribute h "time"))
              (filter (fun h => isNaN (Number (getAttribute h "time"))) hs)).
Proof.
  revert children channel.
  induction hs as [|h hs IH]; intros children channel.
  - simpl. now rewrite app_nil_r.
  - cbn [fold_left filter]. rewrite markdownHeading_step.
    destruct (isNaN (Number (getAttribute h "time"))) eqn:Nt; cbn [negb map].
    + rewrite IH, <- app_assoc. reflexivity.
    + rewrite IH. reflexivity.
Qed.

(** X14.  For a Markdown document, the labels of the headings are the
    distinct titles of the elements whose [time] is a number, in document
    order, and the lines sent are one for each element whose [time] is no
    number, in document order, naming its title and its [time]. *)
Theorem markdown_headings_and_warnings
        (s : string) (c : option string) (hs : list HTMLElement) :
  s <> EmptyString ->
  isAsciiDoc s = false ->
  getTimeElementsForDidactFileUri s = Some hs ->
  map label (fst (processHeadingsForTutorial (Some s) c))
  = firstOccurrences
      (map rawText
           (filter (fun h => negb (isNaN (Number (getAttribute h "time")))) hs))
  /\ snd (processHeadingsForTutorial (Some s) c)
     = map (fun h => invalidTime (rawText h) (getAttribute h "time"))
           (filter (fun h => isNaN (Number (getAttribute h "time"))) hs).
Proof.
  intros Hs Md Elements. apply truthy_true_iff in Hs.
  unfold processHeadingsForTutorial. rewrite Hs, Elements, Md. simpl.
  rewrite markdown_fold. simpl. split; [|reflexivity].
  rewrite (guarded_fold_labels
             (fun h => setContextValue "HeadingNode"
                         (HeadingNode c (rawText h) (Some s)
                            (Some (minutes (Number (getAttribute h "time"))))))).
  reflexivity.
Qed.

Lemma asciidocHeading_step (u c : option string) (children : list SimpleNode)
      (channel : list string) (div : HTMLElement) :
  asciidocHeading u c (children, channel) div
  = (match fst (getNodeFromADOCDiv div u c) with
     | Some node =>
         if negb (doesNodeExist children (setContextValue "HeadingNode" node))
         then addChild (setContextValue "HeadingNode" node) children
         else children
     | None => children
     end,
     channel ++ snd (getNodeFromADOCDiv div u c)).
Proof.
  unfold asciidocHeading.
  destruct (getNodeFromADOCDiv div u c) as [[node|] sent]; simpl; [|reflexivity].
  now rewrite (doesNodeExist_label children node
                 (setContextValue "HeadingNode" node) eq_refl).
Qed.

(** The AsciiDoc loop, as a loop over the nodes the divs give. *)
Lemma asciidoc_fold (u c : option string) (divs : list HTMLElement)
      (children : list SimpleNode) (channel : list string) :
  fold_left (asciidocHeading u c) divs (children, channel)
  = (fold_left
       (fun acc node =>
          if negb (doesNodeExist acc (setContextValue "HeadingNode" node))
          then addChild (setContextValue "HeadingNode" node) acc
          else acc)
       (flat_map (fun div => match fst (getNodeFromADOCDiv div u c) with
                             | Some node => [node]
                             | None => []
                             end) divs)
       children,
     channel ++ flat_map (fun div => snd (getNodeFromADOCDiv div u c)) divs).
Proof.
  revert children channel.
  induction divs as [|div divs IH]; intros children channel.
  - simpl. now rewrite app_nil_r.
  - cbn [fold_left flat_map]. rewrite asciidocHeading_step, IH, <- app_assoc.
    rewrite fold_left_app.
    now destruct (fst (getNodeFromADOCDiv div u c)).
Qed.

(** X15.  For an AsciiDoc document, the labels of the headings are the
    distinct titles of the nodes the divs give, in document order, and the
    lines sent are those of the divs, one div after the other. *)
Theorem asciidoc_headings_and_warnings
        (s : string) (c : option string) (divs : list HTMLElement) :
  s <> EmptyString ->
  isAsciiDoc s = true ->
  getTimeElementsForDidactFileUri s = Some divs ->
  map label (fst (processHeadingsForTutorial (Some s) c))
  = firstOccurrences
      (flat_map (fun div => match fst (getNodeFromADOCDiv div (Some s) c) with
                            | Some node => [label node]
                            | None => []
                            end) divs)
  /\ snd (processHeadingsForTutorial (Some s) c)
     = flat_map (fun div => snd (getNodeFromADOCDiv div (Some s) c)) divs.
Proof.
  intros Hs Adoc Elements. apply truthy_true_iff in Hs.
  unfold processHeadingsForTutorial. rewrite Hs, Elements, Adoc. simpl.
  rewrite asciidoc_fold. simpl. split; [|reflexivity].
  rewrite (guarded_fold_labels (setContextValue "HeadingNode")).
  f_equal. clear Elements.
  induction divs as [|div divs IH]; [reflexivity|].
  cbn [flat_map]. rewrite map_app, IH.
  now destruct (fst (getNodeFromADOCDiv div (Some s) c)).
Qed.

End HeadingLayer.

Section HeadingLayerExamples.
Import JS Html NodeProvider Sample.

Lemma headings_carry_tutorial_and_time_example :
  forall n : SimpleNode,
    In n (fst (processHeadingsForTutorial (Some "file:///a.didact.md") (Some "Cat"))) ->
    class n = IsHeadingNode /\ uri n = Some "file:///a.didact.md"
    /\ category n = Some "Cat"
    /\ contextValue n = Some "HeadingNode" /\ collapsibleState n = NoState
    /\ exists t : number, isNaN t = false /\ description n = Some (minutes t).
Proof.
  exact (proj1 (headings_carry_tutorial_and_time
                  (Some "file:///a.didact.md") (Some "Cat"))).
Defined.

Lemma markdown_headings_and_warnings_example :
  map label (fst (processHeadingsForTutorial (Some "file:///a.didact.md") (Some "Cat")))
  = ["Intro"]
  /\ snd (processHeadingsForTutorial (Some "file:///a.didact.md") (Some "Cat"))
     = [invalidTime "Setup" (Some "abc"); invalidTime "Notes" None].
Proof.
  apply (markdown_headings_and_warnings
           (Num := DigitNumbers) (Ext := Workspace)
           "file:///a.didact.md" (Some "Cat")
           [timedHeading "Intro" "5"; timedHeading "Setup" "abc";
            untimedHeading "Notes"; timedHeading "Intro" "7"]);
    [discriminate|reflexivity|reflexivity].
Defined.

Lemma asciidoc_headings_and_warnings_example :
  map label (fst (processHeadingsForTutorial (Some "file:///b.didact.adoc") (Some "Cat")))
  = ["Step One"]
  /\ snd (processHeadingsForTutorial (Some "file:///b.didact.adoc") (Some "Cat")) = [].
Proof.
  apply (asciidoc_headings_and_warnings
           (Num := DigitNumbers) (Ext := Workspace)
           "file:///b.didact.adoc" (Some "Cat")
           [section [child "H2" "Step One"]; section [child "H2" "Step One"]]);
    [discriminate|reflexivity|reflexivity].
Defined.

End HeadingLayerExamples.

(** * Moving in the tree *)

Section Navigation.
Import JS Html NodeProvider.
Context {Num : Numbers} {Ext : ExtensionFunctions}.

Lemma categories_are_not_empty (r : Utils.Registry) (c : string) :
  In c (Utils.getDidactCategories r) -> truthy c = true.
Proof.
  rewrite getDidactCategories_filter. intro H.
  apply in_map_iff in H as [e [<- He]]. now apply filter_In in He as [_ T].
Qed.

Lemma nothing_under_the_empty_category (r : Utils.Registry) :
  Utils.getTutorialsForCategory EmptyString r = [].
Proof.
  rewrite getTutorialsForCategory_filter.
  induction (Utils.registrations r) as [|e l IH]; simpl; [reflexivity|].
  unfold Utils.listed at 1.
  destruct (Utils.category e); simpl; [exact IH|].
  now rewrite andb_false_r.
Qed.

Lemma tutorialNodeOf_label (c : string) (r : Utils.Registry) (t : string) :
  label (tutorialNodeOf c r t) = t.
Proof.
  unfold tutorialNodeOf.
  destruct (Utils.getUriForDidactNameAndCategory t c r) as [u|];
    [destruct (truthy u); [destruct (positive (computeTimeForDidactFileUri u))|]|];
    reflexivity.
Qed.

Lemma tutorialNodeOf_shape (c : string) (r : Utils.Registry) (t : string) :
  class (tutorialNodeOf c r t) = IsTutorialNode
  /\ category (tutorialNodeOf c r t) = Some c
  /\ uri (tutorialNodeOf c r t) = Utils.getUriForDidactNameAndCategory t c r.
Proof.
  unfold tutorialNodeOf.
  destruct (Utils.getUriForDidactNameAndCategory t c r) as [u|];
    [destruct (truthy u); [destruct (positive (computeTimeForDidactFileUri u))|]|];
    simpl; auto.
Qed.

Lemma processTutorialsForCategory_guarded (c : string) (r : Utils.Registry) :
  truthy c = true ->
  processTutorialsForCategory (Some c) r
  = fold_left (fun acc t => if negb (doesNodeExist acc (tutorialNodeOf c r t))
                            then addChild (tutorialNodeOf c r t) acc else acc)
              (Utils.getTutorialsForCategory c r) [].
Proof.
  intro Hc. unfold processTutorialsForCategory. rewrite Hc.
  apply fold_left_pointwise. intros s t. unfold tutorialNodeOf.
  destruct (Utils.getUriForDidactNameAndCategory t c r) as [u|];
    [destruct (truthy u); [destruct (positive (computeTimeForDidactFileUri u))|]|];
    reflexivity.
Qed.

Lemma tutorial_labels (c : string) (r : Utils.Registry) :
  map label (processTutorialsForCategory (Some c) r)
  = firstOccurrences (Utils.getTutorialsForCategory c r).
Proof.
  destruct (truthy c) eqn:Hc.
  - rewrite (processTutorialsForCategory_guarded c r Hc), guarded_fold_labels.
    f_equal. rewrite (map_ext _ (fun t => t) (tutorialNodeOf_label c r)).
    apply map_id.
  - apply truthy_false_iff in Hc. subst c.
    now rewrite nothing_under_the_empty_category.
Qed.

Lemma tutorial_nodes (c : string) (r : Utils.Registry) (n : SimpleNode) :
  In n (processTutorialsForCategory (Some c) r) ->
  n = tutorialNodeOf c r (label n)
  /\ In (label n) (Utils.getTutorialsForCategory c r).
Proof.
  destruct (truthy c) eqn:Hc.
  - rewrite (processTutorialsForCategory_guarded c r Hc). intro Hn.
    apply guarded_fold_members in Hn as [t [Ht ->]].
    now rewrite tutorialNodeOf_label.
  - apply truthy_false_iff in Hc. subst c. intros [].
Qed.

Lemma last_match_fold {A} (test : A -> bool) (l : list A) (init : option A) :
  fold_left (fun found e => if test e then Some e else found) l init
  = match find test (rev l) with
    | Some e => Some e
    | None => init
    end.
Proof.
  induction l as [|a l IH] using rev_ind; [reflexivity|].
  rewrite fold_left_app, rev_app_distr. simpl.
  destruct (test a); [reflexivity|exact IH].
Qed.

Lemma children_of_category_node (c : string) (r : Utils.Registry) (p : Provider) :
  getChildren (Some (TreeNode (Some c) c None Collapsed)) r p
  = (processTutorialsForCategory (Some c) r, []).
Proof.
  unfold getChildren. simpl. destruct c; reflexivity.
Qed.

Lemma findTutorialNode_find (c t : string) (r : Utils.Registry) (p : Provider) :
  findTutorialNode c t r p
  = if doesNodeExist (treeNodes p) (TreeNode (Some c) c None Collapsed)
    then find (fun e => instanceofTreeNode e
                        && (String.eqb (label e) t && strictEq (category e) c))
              (rev (processTutorialsForCategory (Some c) r))
    else None.
Proof.
  unfold findTutorialNode, findCategoryNode.
  destruct (doesNodeExist (treeNodes p) _); [|reflexivity].
  rewrite children_of_category_node. cbn [fst].
  rewrite (fold_left_pointwise
             _ (fun found e =>
                  if instanceofTreeNode e
                     && (String.eqb (label e) t && strictEq (category e) c)
                  then Some e else found)).
  - rewrite last_match_fold. now destruct (find _ _).
  - intros s a. now destruct (instanceofTreeNode a).
Qed.

Lemma findHeadingNode_find (c u : string) (r : Utils.Registry) (p : Provider) :
  findHeadingNode c u r p
  = if doesNodeExist (treeNodes p) (TreeNode (Some c) c None Collapsed)
    then find (fun e => instanceofTreeNode e
                        && (strictEq (uri e) u && strictEq (category e) c))
              (rev (processTutorialsForCategory (Some c) r))
    else None.
Proof.
  unfold findHeadingNode, findCategoryNode.
  destruct (doesNodeExist (treeNodes p) _); [|reflexivity].
  rewrite children_of_category_node. cbn [fst].
  rewrite (fold_left_pointwise
             _ (fun found e =>
                  if instanceofTreeNode e
                     && (strictEq (uri e) u && strictEq (category e) c)
                  then Some e else found)).
  - rewrite last_match_fold. now destruct (find _ _).
  - intros s a. now destruct (instanceofTreeNode a).
Qed.

(** X16.  The children of a node that is no tutorial node depend on its
    label alone: they are the tutorial nodes of the category of that name,
    one for each distinct tutorial listed under it, and nothing is sent to
    the output channel.  So a heading node has children exactly when its
    title is the name of a category with tutorials. *)
Theorem children_of_a_node_that_is_no_tutorial
        (n : SimpleNode) (r : Utils.Registry) (p : Provider) :
  class n <> IsTutorialNode ->
  getChildren (Some n) r p = (processTutorialsForCategory (Some (label n)) r, [])
  /\ map label (fst (getChildren (Some n) r p))
     = firstOccurrences (Utils.getTutorialsForCategory (label n) r).
Proof.
  intro NotTutorial.
  assert (E : getChildren (Some n) r p
              = (processTutorialsForCategory (Some (label n)) r, [])).
  { unfold getChildren, instanceofTutorialNode, retrieveTreeItemName.
    destruct (class n); try congruence;
      destruct (label n) eqn:L; reflexivity. }
  split; [exact E|]. rewrite E. apply tutorial_labels.
Qed.

End Navigation.

Section Parents.
Import JS Html NodeProvider.
Context {Num : Numbers} {Ext : ExtensionFunctions}.

Lemma refreshed_tree (r : Utils.Registry) (p : Provider) :
  retrieveTutorials p = true ->
  treeNodes (refresh r p)
  = map (fun c => TreeNode (Some c) c None Collapsed)
        (firstOccurrences (Utils.getDidactCategories r)).
Proof.
  intro On. unfold refresh, resetList. simpl. rewrite On. simpl.
  apply processRegisteredTutorials_from_empty.
Qed.

Lemma refreshed_category (r : Utils.Registry) (p : Provider) (cat : SimpleNode) :
  retrieveTutorials p = true ->
  In cat (treeNodes (refresh r p)) ->
  exists c : string,
    cat = TreeNode (Some c) c None Collapsed
    /\ truthy c = true
    /\ doesNodeExist (treeNodes (refresh r p)) (TreeNode (Some c) c None Collapsed)
       = true.
Proof.
  intros On Hcat. rewrite (refreshed_tree r p On) in *.
  apply in_map_iff in Hcat as [c [<- Hc]].
  exists c. repeat split.
  - apply (proj1 (firstOccurrences_In _ _)) in Hc.
    exact (categories_are_not_empty r c Hc).
  - apply doesNodeExist_In. simpl. rewrite map_map. simpl. now rewrite map_id.
Qed.

(** X17.  In a tree just refreshed with retrieval on, [getParent] undoes
    [getChildren] at the first level: the parent of every child of a
    category node is that category node, and a category node has no
    parent. *)
Theorem parent_of_a_tutorial_is_its_category
        (r : Utils.Registry) (p : Provider) (cat child : SimpleNode) :
  retrieveTutorials p = true ->
  In cat (treeNodes (refresh r p)) ->
  In child (fst (getChildren (Some cat) r (refresh r p))) ->
  getParent child r (refresh r p) = Some cat
  /\ getParent cat r (refresh r p) = None.
Proof.
  intros On Hcat Hchild.
  destruct (refreshed_category r p cat On Hcat) as [c [-> [Tc Exists]]].
  split; [|reflexivity].
  rewrite children_of_category_node in Hchild. simpl in Hchild.
  apply tutorial_nodes in Hchild as [-> _].
  destruct (tutorialNodeOf_shape c r (label child)) as [Class [Cat _]].
  unfold getParent, instanceofTutorialNode. rewrite Class, Cat, Tc.
  unfold findCategoryNode. now rewrite Exists.
Qed.

(** X18.  [findTutorialNode c t] answers with a node only if a top-level
    node is labelled [c], and the node is then a child of that category
    labelled [t]; when a top-level node is labelled [c] and [t] is listed
    under [c], it answers with the node of that tutorial; when no top-level
    node is labelled [c] it answers with nothing. *)
Theorem findTutorialNode_finds_the_listed_tutorial
        (c t : string) (r : Utils.Registry) (p : Provider) :
  (forall n : SimpleNode,
      findTutorialNode c t r p = Some n ->
      label n = t /\ category n = Some c
      /\ In n (processTutorialsForCategory (Some c) r)
      /\ exists m, In m (treeNodes p) /\ label m = c)
  /\ ((exists m, In m (treeNodes p) /\ label m = c) ->
      In t (Utils.getTutorialsForCategory c r) ->
      findTutorialNode c t r p = Some (tutorialNodeOf c r t))
  /\ ((forall m, In m (treeNodes p) -> label m <> c) ->
      findTutorialNode c t r p = None).
Proof.
  rewrite findTutorialNode_find. repeat split.
  - destruct (doesNodeExist (treeNodes p) _); [|discriminate].
    apply find_some in H as [_ T].
    apply andb_true_iff in T as [_ T]. apply andb_true_iff in T as [T _].
    now apply String.eqb_eq.
  - destruct (doesNodeExist (treeNodes p) _); [|discriminate].
    apply find_some in H as [Hn _]. apply in_rev in Hn.
    apply tutorial_nodes in Hn as [E _]. rewrite E.
    apply (tutorialNodeOf_shape c r (label n)).
  - destruct (doesNodeExist (treeNodes p) _); [|discriminate].
    apply find_some in H as [Hn _]. now apply in_rev in Hn.
  - destruct (doesNodeExist (treeNodes p) _) eqn:D; [|discriminate].
    apply doesNodeExist_In, in_map_iff in D as [m [Hl Hm]]. now exists m.
  - intros [m [Hm Hl]] Listed.
    assert (D : doesNodeExist (treeNodes p) (TreeNode (Some c) c None Collapsed) = true).
    { apply doesNodeExist_In. simpl. rewrite <- Hl. now apply in_map. }
    rewrite D.
    assert (Node : In (tutorialNodeOf c r t) (processTutorialsForCategory (Some c) r)).
    { apply (proj2 (firstOccurrences_In _ _)) in Listed.
      rewrite <- tutorial_labels in Listed.
      apply in_map_iff in Listed as [n [Hl' Hn]].
      destruct (tutorial_nodes c r n Hn) as [E _]. rewrite Hl' in E. now subst n. }
    destruct (find _ _) as [n|] eqn:F.
    + apply find_some in F as [Hn T]. apply in_rev in Hn.
      apply andb_true_iff in T as [_ T]. apply andb_true_iff in T as [T _].
      apply String.eqb_eq in T.
      destruct (tutorial_nodes c r n Hn) as [E _]. rewrite T in E. now subst n.
    + exfalso. apply in_rev in Node. apply (find_none _ _ F) in Node.
      destruct (tutorialNodeOf_shape c r t) as [Class [Cat _]].
      unfold instanceofTreeNode in Node.
      rewrite Class, Cat, tutorialNodeOf_label in Node. simpl in Node.
      rewrite !String.eqb_refl in Node. discriminate.
  - intro Absent.
    assert (D : doesNodeExist (treeNodes p) (TreeNode (Some c) c None Collapsed) = false).
    { apply not_true_is_false. intro D.
      apply doesNodeExist_In, in_map_iff in D as [m [Hl Hm]].
      exact (Absent m Hm Hl). }
    now rewrite D.
Qed.

Lemma find_last {A} (test : A -> bool) (l : list A) (x : A) :
  find test (rev l) = Some x ->
  exists before after,
    l = before ++ x :: after
    /\ test x = true
    /\ forall y, In y after -> test y = false.
Proof.
  induction l as [|a l IH] using rev_ind; [discriminate|].
  rewrite rev_app_distr. simpl.
  destruct (test a) eqn:T.
  - intro H. injection H as <-. exists l, []. repeat split; auto. intros y [].
  - intro H. destruct (IH H) as [before [after [-> [Tx Rest]]]].
    exists before, (after ++ [a]). repeat split; auto.
    + now rewrite <- app_assoc.
    + intros y Hy. apply in_app_or in Hy as [Hy|[<-|[]]]; [now apply Rest|exact T].
Qed.

(** X19.  In a tree just refreshed with retrieval on, the parent
    [getParent] gives for a heading under a tutorial of a category is the
    last tutorial node of that category with the uri of the tutorial: no
    child of the category after it has that uri.  Hence it is the tutorial
    itself when no other tutorial of the category has its uri. *)
Theorem parent_of_a_heading_has_its_uri
        (r : Utils.Registry) (p : Provider) (cat tutorial heading : SimpleNode) :
  retrieveTutorials p = true ->
  In cat (treeNodes (refresh r p)) ->
  In tutorial (fst (getChildren (Some cat) r (refresh r p))) ->
  In heading (fst (getChildren (Some tutorial) r (refresh r p))) ->
  exists (parent : SimpleNode) (before after : list SimpleNode),
    getParent heading r (refresh r p) = Some parent
    /\ fst (getChildren (Some cat) r (refresh r p)) = before ++ parent :: after
    /\ uri parent = uri tutorial
    /\ category parent = category tutorial
    /\ (forall other, In other after -> uri other <> uri tutorial)
    /\ ((forall other, In other (fst (getChildren (Some cat) r (refresh r p))) ->
                       uri other = uri tutorial -> other = tutorial) ->
        parent = tutorial).
Proof.
  intros On Hcat Htut Hhead.
  destruct (refreshed_category r p cat On Hcat) as [c [-> [Tc Exists]]].
  rewrite children_of_category_node in *. cbn [fst] in *.
  pose proof Htut as Member.
  apply tutorial_nodes in Htut as [E _].
  destruct (tutorialNodeOf_shape c r (label tutorial)) as [Class [Cat _]].
  rewrite <- E in Class, Cat.
  unfold getChildren, instanceofTutorialNode in Hhead. rewrite Class, Cat in Hhead.
  destruct (uri tutorial) as [u|] eqn:U; [|destruct Hhead].
  destruct (truthy u) eqn:Tu;
    [|unfold processHeadingsForTutorial in Hhead; rewrite Tu in Hhead;
      destruct Hhead].
  apply heading_nodes in Hhead as [HClass [HUri [HCat _]]].
  unfold getParent, instanceofTutorialNode, instanceofHeadingNode.
  rewrite HClass, HCat, HUri, Tc, Tu. simpl.
  rewrite findHeadingNode_find, Exists.
  assert (Test : (fun e => instanceofTreeNode e
                           && (strictEq (uri e) u && strictEq (category e) c))
                   tutorial = true).
  { unfold instanceofTreeNode. rewrite Class, U, Cat. simpl.
    now rewrite !String.eqb_refl. }
  destruct (find _ (rev (processTutorialsForCategory (Some c) r))) as [parent|] eqn:F.
  - apply find_last in F as [before [after [Split [T Rest]]]].
    exists parent, before, after.
    apply andb_true_iff in T as [_ T]. apply andb_true_iff in T as [Tu' Tc'].
    unfold strictEq in Tu', Tc'.
    destruct (uri parent) as [u'|] eqn:U'; [|discriminate].
    destruct (category parent) as [c'|] eqn:C'; [|discriminate].
    apply String.eqb_eq in Tu', Tc'. subst u' c'.
    split; [reflexivity|]. split; [exact Split|].
    split; [congruence|]. split; [congruence|]. split.
    + intros other Hother Same.
      assert (Child : In other (processTutorialsForCategory (Some c) r)).
      { rewrite Split. apply in_or_app. right. now right. }
      apply tutorial_nodes in Child as [Eo _].
      destruct (tutorialNodeOf_shape c r (label other)) as [ClassO [CatO _]].
      rewrite <- Eo in ClassO, CatO.
      pose proof (Rest other Hother) as No. simpl in No.
      unfold instanceofTreeNode in No.
      rewrite ClassO, CatO, Same in No. simpl in No.
      rewrite !String.eqb_refl in No. discriminate.
    + intro Only. apply Only; [|congruence].
      change (In parent (processTutorialsForCategory (Some c) r)).
      rewrite Split. apply in_or_app. right. now left.
  - exfalso. apply in_rev in Member.
    pose proof (find_none _ _ F tutorial Member) as No.
    simpl in Test, No. congruence.
Qed.

(** X20.  [addChild] with its default list pushes without a test and
    returns the list with the node at its end.  With the refresh left on,
    the tree does not keep the node: a node is in the tree afterwards only
    when retrieval is on and it is the category node of a registered
    category; with the refresh disabled the tree is the returned list. *)
Theorem addChild_then_refresh_drops_the_node
        (n : SimpleNode) (r : Utils.Registry) (p : Provider) :
  (forall disableRefresh : bool,
      fst (addChildToTree n disableRefresh r p) = treeNodes p ++ [n])
  /\ treeNodes (snd (addChildToTree n true r p)) = treeNodes p ++ [n]
  /\ snd (addChildToTree n false r p) = refresh r p
  /\ (In n (treeNodes (snd (addChildToTree n false r p))) ->
      retrieveTutorials p = true
      /\ n = TreeNode (Some (label n)) (label n) None Collapsed
      /\ In (label n) (Utils.getDidactCategories r)).
Proof.
  repeat split.
  - intros [|]; reflexivity.
  - destruct (retrieveTutorials p) eqn:On; [reflexivity|].
    unfold addChildToTree, refresh, resetList in H. simpl in H.
    rewrite On in H. destruct H.
  - unfold addChildToTree, refresh, resetList in H. simpl in H.
    destruct (retrieveTutorials p); [|destruct H].
    simpl in H. rewrite processRegisteredTutorials_from_empty in H.
    apply in_map_iff in H as [c [<- _]]. reflexivity.
  - unfold addChildToTree, refresh, resetList in H. simpl in H.
    destruct (retrieveTutorials p); [|destruct H].
    simpl in H. rewrite processRegisteredTutorials_from_empty in H.
    apply in_map_iff in H as [c [<- Hc]]. simpl.
    exact (proj1 (firstOccurrences_In _ _) Hc).
Qed.

End Parents.

Section NavigationExamples.
Import JS Html NodeProvider Sample.

Lemma children_of_a_node_that_is_no_tutorial_example :
  map label
      (fst (getChildren
              (Some (HeadingNode (Some "Other") "Cat" (Some "file:///a.didact.md")
                                 (Some "(~5 mins)")))
              (Some [fooCat; barCat]) (mkProvider [] true)))
  = ["Foo"; "Bar"].
Proof.
  destruct (children_of_a_node_that_is_no_tutorial
              (Num := DigitNumbers) (Ext := Workspace)
              (HeadingNode (Some "Other") "Cat" (Some "file:///a.didact.md")
                           (Some "(~5 mins)"))
              (Some [fooCat; barCat]) (mkProvider [] true))
    as [_ Labels]; [discriminate|].
  exact Labels.
Defined.

Lemma parent_of_a_tutorial_is_its_category_example :
  getParent (tutorialNodeOf "Cat" (Some [fooCat; barCat]) "Foo")
            (Some [fooCat; barCat])
            (refresh (Some [fooCat; barCat]) (mkProvider [storedCat] true))
  = Some (TreeNode (Some "Cat") "Cat" None Collapsed).
Proof.
  destruct (parent_of_a_tutorial_is_its_category
              (Num := DigitNumbers) (Ext := Workspace)
              (Some [fooCat; barCat]) (mkProvider [storedCat] true)
              (TreeNode (Some "Cat") "Cat" None Collapsed)
              (tutorialNodeOf "Cat" (Some [fooCat; barCat]) "Foo"))
    as [Parent _].
  - reflexivity.
  - left. reflexivity.
  - left. reflexivity.
  - exact Parent.
Defined.

Lemma findTutorialNode_example :
  findTutorialNode "Cat" "Bar" (Some [fooCat; barCat])
                   (mkProvider [TreeNode (Some "Cat") "Cat" None Collapsed] true)
  = Some (tutorialNodeOf "Cat" (Some [fooCat; barCat]) "Bar").
Proof.
  destruct (findTutorialNode_finds_the_listed_tutorial
              (Num := DigitNumbers) (Ext := Workspace)
              "Cat" "Bar" (Some [fooCat; barCat])
              (mkProvider [TreeNode (Some "Cat") "Cat" None Collapsed] true))
    as [_ [Found _]].
  apply Found.
  - exists (TreeNode (Some "Cat") "Cat" None Collapsed). split; [now left|reflexivity].
  - right. left. reflexivity.
Defined.

Lemma parent_of_a_heading_has_its_uri_example :
  exists (parent : SimpleNode) (after : list SimpleNode),
    getParent (setContextValue "HeadingNode"
                 (HeadingNode (Some "Cat") "Intro" (Some "file:///a.didact.md")
                              (Some "(~5 mins)")))
              (Some [fooCat; barCat])
              (refresh (Some [fooCat; barCat]) (mkProvider [] true))
    = Some parent
    /\ uri parent = Some "file:///a.didact.md"
    /\ forall other, In other after -> uri other <> Some "file:///a.didact.md".
Proof.
  destruct (parent_of_a_heading_has_its_uri
              (Num := DigitNumbers) (Ext := Workspace)
              (Some [fooCat; barCat]) (mkProvider [] true)
              (TreeNode (Some "Cat") "Cat" None Collapsed)
              (tutorialNodeOf "Cat" (Some [fooCat; barCat]) "Foo")
              (setContextValue "HeadingNode"
                 (HeadingNode (Some "Cat") "Intro" (Some "file:///a.didact.md")
                              (Some "(~5 mins)"))))
    as [parent [before [after [Found [_ [Uri [_ [Last _]]]]]]]].
  - reflexivity.
  - left. reflexivity.
  - left. reflexivity.
  - left. reflexivity.
  - exists parent, after. split; [exact Found|]. split; [exact Uri|exact Last].
Defined.

Lemma addChild_then_refresh_example :
  treeNodes (snd (addChildToTree storedCat false (Some [fooCat; barCat])
                                 (mkProvider [] true)))
  = [TreeNode (Some "Cat") "Cat" None Collapsed]
  /\ fst (addChildToTree storedCat false (Some [fooCat; barCat]) (mkProvider [] true))
     = [storedCat].
Proof.
  destruct (addChild_then_refresh_drops_the_node
              storedCat (Some [fooCat; barCat]) (mkProvider [] true))
    as [Returned [_ [Tree _]]].
  split; [now rewrite Tree|exact (Returned false)].
Defined.

End NavigationExamples.
